(** * exchangelib.transport: authentication negotiation and SOAP envelopes

    A shallow embedding of [exchangelib/transport.py].  Python strings are
    [string]s, Python lists are [list]s, the module's dictionary
    [AUTH_TYPE_MAP] is a [gmap], raised exceptions are values of [exn]
    carried by [result], and the HTTP session is an explicit world that is
    threaded through the probing functions. *)

From Stdlib Require Import ZArith Ascii String List Bool Lia.
From stdpp Require Import base tactics option list strings gmap pretty.

Local Open Scope Z_scope.

(** ** Python values *)

(** The exceptions that [transport.py] raises or lets escape.  The first four
    are the classes imported from [errors.py]; the last three are Python
    built-ins. *)
Inductive exn : Type :=
| UnauthorizedError (value : string)
| TransportError (value : string)
| RedirectError (url : string)
| RelativeRedirect (value : string)
| ValueError (value : string)
| IndexError (value : string)
| AttributeError (value : string).

(** The outcome of a Python call: a returned value or a raised exception. *)
Inductive result (A : Type) : Type :=
| Return (a : A)
| Raise (e : exn).
Arguments Return {A} a.
Arguments Raise {A} e.

Definition bind {A B : Type} (m : result A) (k : A -> result B) : result B :=
  match m with
  | Return a => k a
  | Raise e => Raise e
  end.

Notation "'do' x <- m ; k" := (bind m (fun x => k))
  (at level 10, x name, m at level 100, k at level 200).

(** ** String primitives used by the module *)

Module Py.

(** The character [chr(34)], the double quote. *)
Definition dquote : ascii := ascii_of_nat 34.
(** The character [chr(92)], the backslash. *)
Definition backslash : ascii := ascii_of_nat 92.
(** The character [chr(10)], the line feed. *)
Definition newline : ascii := ascii_of_nat 10.

(** [str(c)] for a single character. *)
Definition chr (c : ascii) : string := String c EmptyString.

(** [c.lower()] on one character.  Characters are octets, as in the header
    and body text the module reads: the letters A-Z move to a-z and every
    other character stays. *)
Definition lower_char (c : ascii) : ascii :=
  let n := N_of_ascii c in
  if ((65 <=? n) && (n <=? 90))%N then ascii_of_N (n + 32) else c.

(** [s.lower()]. *)
Fixpoint lower (s : string) : string :=
  match s with
  | EmptyString => EmptyString
  | String c s' => String (lower_char c) (lower s')
  end.

(** [s.startswith(p)]. *)
Definition startswith (s p : string) : bool := String.prefix p s.

(** [s.split(sep)] for a one-character separator: the pieces between the
    occurrences of [sep], always at least one piece. *)
Fixpoint split (sep : ascii) (s : string) : list string :=
  match s with
  | EmptyString => [EmptyString]
  | String c s' =>
      if Ascii.eqb c sep then EmptyString :: split sep s'
      else match split sep s' with
           | piece :: pieces => String c piece :: pieces
           | [] => [String c EmptyString]
           end
  end.

(** [s.lstrip(c)] for a one-character set. *)
Fixpoint lstrip (c : ascii) (s : string) : string :=
  match s with
  | EmptyString => EmptyString
  | String a s' => if Ascii.eqb a c then lstrip c s' else s
  end.

(** [s.rstrip(c)] for a one-character set. *)
Fixpoint rstrip (c : ascii) (s : string) : string :=
  match s with
  | EmptyString => EmptyString
  | String a s' =>
      match rstrip c s' with
      | EmptyString => if Ascii.eqb a c then EmptyString else String a EmptyString
      | rest => String a rest
      end
  end.

(** [s.strip(c)] for a one-character set. *)
Definition strip (c : ascii) (s : string) : string := rstrip c (lstrip c s).

(** [s.count(sub)] for a non-empty [sub]: the number of non-overlapping
    occurrences, scanning from the left.  [skip] counts the characters of the
    last match that are still to be passed over. *)
Fixpoint count_from (sub : string) (skip : nat) (s : string) : nat :=
  match s with
  | EmptyString => 0
  | String _ s' =>
      match skip with
      | S k => count_from sub k s'
      | O => if String.prefix sub s
             then S (count_from sub (String.length sub - 1) s')
             else count_from sub 0 s'
      end
  end.

Definition count (s sub : string) : nat := count_from sub 0 s.

(** The truth value of a string: [bool(s)]. *)
Definition truthy (s : string) : bool :=
  match s with
  | EmptyString => false
  | String _ _ => true
  end.

End Py.

(** ** The module's constants *)

(** Authentication method enums. *)
Definition NOAUTH : string := "no authentication".
Definition NTLM : string := "NTLM".
Definition BASIC : string := "basic".
Definition DIGEST : string := "digest".
Definition UNKNOWN : string := "unknown".

(** ** [_tokenize] *)

(** The three local variables of the scanning loop. *)
Record tok_state : Type := TokState {
  tokens : list string;
  token : string;
  quote : bool
}.

(** [c in (' ', ',')]. *)
Definition is_separator (c : ascii) : bool :=
  Ascii.eqb c " "%char || Ascii.eqb c ","%char.

(** [token not in ('', ',')]. *)
Definition keeps_token (t : string) : bool :=
  negb (String.eqb t EmptyString || String.eqb t ",").

(** One iteration of [for c in val]. *)
Definition tok_step (st : tok_state) (c : ascii) : tok_state :=
  if is_separator c && negb (quote st) then
    {| tokens := if keeps_token (token st) then tokens st ++ [token st] else tokens st;
       token := EmptyString;
       quote := quote st |}
  else if Ascii.eqb c Py.dquote then
    let token' := token st +:+ Py.chr c in
    if quote st
    then {| tokens := tokens st ++ [token']; token := EmptyString; quote := negb (quote st) |}
    else {| tokens := tokens st; token := token'; quote := negb (quote st) |}
  else
    {| tokens := tokens st; token := token st +:+ Py.chr c; quote := quote st |}.

(** The whole loop, from a given state. *)
Fixpoint tok_loop (val : string) (st : tok_state) : tok_state :=
  match val with
  | EmptyString => st
  | String c val' => tok_loop val' (tok_step st c)
  end.

(** The statements after the loop: a residual token is appended. *)
Definition tok_finish (st : tok_state) : list string :=
  if Py.truthy (token st) then tokens st ++ [token st] else tokens st.

Definition _tokenize (val : string) : list string :=
  tok_finish (tok_loop val {| tokens := []; token := EmptyString; quote := false |}).

(** ** HTTP responses *)

(** A location as the module compares it: scheme, host and path. *)
Record Url : Type := MkUrl {
  has_ssl : bool;
  server : string;
  path : string
}.

Definition url_to_str (u : Url) : string :=
  (if has_ssl u then "https" else "http") +:+ "://" +:+ server u +:+ path u.

Definition url_eqb (u v : Url) : bool :=
  Bool.eqb (has_ssl u) (has_ssl v) && String.eqb (server u) (server v)
  && String.eqb (path u) (path v).

(** What the module reads of a [requests] response: [status_code], [reason],
    [headers.items()] and [text], together with the location of the request
    that produced it and the target named by its Location header ([None] when
    the header is absent or does not name a location). *)
Record Response : Type := MkResponse {
  status_code : Z;
  reason : string;
  headers : list (string * string);
  text : string;
  request_url : Url;
  location : option Url
}.

(** A redirect is relative when scheme and host are those of the request. *)
Definition is_relative (request target : Url) : bool :=
  Bool.eqb (has_ssl request) (has_ssl target)
  && String.eqb (server request) (server target).

(** Modelled from the spec: [util.get_redirect_url] is not among the sources.
    It extracts the redirect target and classifies it as relative or
    cross-domain by the original request's scheme and host; it fails when the
    target is ill-formed or already equal to the source.  Its two flags are
    read off the call sites: with [allow_relative=False] a relative target is
    reported by [RelativeRedirect], with [require_relative=True] a cross-domain
    target is, and the exception carries the target.  Otherwise the target is
    returned as [(redirect_url, redirect_server, redirect_has_ssl)]. *)
Definition get_redirect_url (response : Response) (allow_relative require_relative : bool)
  : result (string * string * bool) :=
  match location response with
  | None => Raise (TransportError "302 redirect but no location header")
  | Some target =>
      if url_eqb target (request_url response)
      then Raise (TransportError ("Redirect to same location: " +:+ url_to_str target))
      else
        let relative := is_relative (request_url response) target in
        if negb allow_relative && relative
        then Raise (RelativeRedirect (url_to_str target))
        else if require_relative && negb relative
        then Raise (RelativeRedirect (url_to_str target))
        else Return (url_to_str target, server target, has_ssl target)
  end.

(** ** [_get_auth_method_from_response] *)

(** [v.split('=')[1]], stripped of its leading and trailing double quotes. *)
Definition realm_of (v : string) : result string :=
  match Py.split "=" v !! 1%nat with
  | Some piece => Return (Py.strip Py.dquote piece)
  | None => Raise (IndexError "list index out of range")
  end.

(** The inner loop [for v in vals], which computes [realm] for the log. *)
Fixpoint log_realms (vals : list string) : result unit :=
  match vals with
  | [] => Return tt
  | v :: vals' =>
      if Py.startswith v "realm"
      then do _ <- realm_of v; log_realms vals'
      else log_realms vals'
  end.

(** The loop [for key, val in response.headers.items()] and the [raise] that
    follows it. *)
Fixpoint auth_from_headers (items : list (string * string)) : result string :=
  match items with
  | [] =>
      Raise (UnauthorizedError
               "Got a 401, but no compatible auth type was reported by server")
  | (key, val) :: items' =>
      if String.eqb (Py.lower key) "www-authenticate" then
        let vals := _tokenize (Py.lower val) in
        do _ <- log_realms vals;
        if bool_decide ("digest" ∈ vals) then Return DIGEST
        else if bool_decide ("ntlm" ∈ vals) then Return NTLM
        else if bool_decide ("basic" ∈ vals) then Return BASIC
        else auth_from_headers items'
      else auth_from_headers items'
  end.

Definition _get_auth_method_from_response (response : Response) : result string :=
  if status_code response =? 200 then Return NOAUTH
  else if status_code response =? 302 then
    match get_redirect_url response false false with
    | Raise (RelativeRedirect _) => Raise (TransportError "Circular redirect")
    | Raise e => Raise e
    | Return (redirect_url, _, _) => Raise (RedirectError redirect_url)
    end
  else if negb (status_code response =? 401) then
    Raise (TransportError
             ("Unexpected response: " +:+ pretty (status_code response)
              +:+ " " +:+ reason response))
  else auth_from_headers (headers response).

(** ** Signing strategies *)

(** The classes that [AUTH_TYPE_MAP] maps to. *)
Inductive AuthModel : Type :=
| HttpNtlmAuth
| HTTPBasicAuth
| HTTPDigestAuth.

Global Instance AuthModel_eq_dec : EqDecision AuthModel.
Proof. solve_decision. Defined.

(** An instance [model(username=..., password=...)]. *)
Record AuthInstance : Type := MkAuth {
  auth_model : AuthModel;
  auth_username : string;
  auth_password : string
}.

Definition AUTH_TYPE_MAP : gmap string (option AuthModel) :=
  <[NTLM := Some HttpNtlmAuth]>
    (<[BASIC := Some HTTPBasicAuth]>
       (<[DIGEST := Some HTTPDigestAuth]>
          (<[NOAUTH := None]> ∅))).

(** Modelled from the spec: [credentials.py] is not among the sources.  A
    credentials object is an opaque record with [username], [password] and a
    kind tag [type]; [EMAIL] is the tag of an email-style identity, read
    through the object as the code does. *)
Record Credentials : Type := MkCredentials {
  username : string;
  password : string;
  type : string;
  EMAIL : string
}.

(** An attribute read on an object that may be [None]. *)
Definition getattr {A : Type} (credentials : option Credentials) (name : string)
  (field : Credentials -> A) : result A :=
  match credentials with
  | Some c => Return (field c)
  | None =>
      Raise (AttributeError
               ("'NoneType' object has no attribute '" +:+ name +:+ "'"))
  end.

Definition get_auth_instance (credentials : option Credentials) (auth_type : string)
  : result (option AuthInstance) :=
  match AUTH_TYPE_MAP !! auth_type with
  | None =>
      Raise (ValueError ("Authentication type '" +:+ auth_type +:+ "' not supported"))
  | Some None => Return None
  | Some (Some model) =>
      do username0 <- getattr credentials "username" username;
      do username1 <-
        (if String.eqb auth_type NTLM then
           do type0 <- getattr credentials "type" type;
           do email <- getattr credentials "EMAIL" EMAIL;
           if String.eqb type0 email
           then Return (Py.chr Py.backslash +:+ username0)
           else Return username0
         else Return username0);
      do password0 <- getattr credentials "password" password;
      Return (Some {| auth_model := model;
                      auth_username := username1;
                      auth_password := password0 |})
  end.

(** ** [_test_response] *)

Definition _is_unauthorized (txt : string) : bool :=
  if (0 <? Py.count (Py.lower txt) "unauthorized")%nat then true else false.

(** [isinstance(auth, requests_ntlm.HttpNtlmAuth)]. *)
Definition is_ntlm_instance (auth : option AuthInstance) : bool :=
  match auth with
  | Some a => bool_decide (auth_model a = HttpNtlmAuth)
  | None => false
  end.

Section TestResponse.

(** [util.is_xml] is not among the sources: the test is a parameter. *)
Variable is_xml : string -> bool.

Definition _test_response (auth : option AuthInstance) (response : Response)
  : result bool :=
  let resp := text response in
  if is_xml resp then Return true
  else if _is_unauthorized resp then
    Raise (UnauthorizedError "Unauthorized (non-401)")
  else if is_ntlm_instance auth && negb (Py.truthy resp) then
    Raise (UnauthorizedError "Unauthorized (NTLM, empty response)")
  else
    Raise (TransportError
             ("Unknown response from Exchange:" +:+ Py.chr Py.newline
              +:+ Py.chr Py.newline +:+ resp)).

End TestResponse.

(** ** [wrap] *)

(** XML namespaces. *)
Definition SOAPNS : string := "http://schemas.xmlsoap.org/soap/envelope/".
Definition MNS : string := "http://schemas.microsoft.com/exchange/services/2006/messages".
Definition TNS : string := "http://schemas.microsoft.com/exchange/services/2006/types".
Definition ENS : string := "http://schemas.microsoft.com/exchange/services/2006/errors".

(** An XML element: tag, attributes, text and children in document order. *)
#[warnings="-register-all"]
Inductive Element : Type :=
| Elem (tag : string) (attrib : list (string * string)) (etext : option string)
       (children : list Element).

Definition tag_of (e : Element) : string :=
  match e with Elem t _ _ _ => t end.
Definition attrib_of (e : Element) : list (string * string) :=
  match e with Elem _ a _ _ => a end.
Definition text_of (e : Element) : option string :=
  match e with Elem _ _ x _ => x end.
Definition children_of (e : Element) : list Element :=
  match e with Elem _ _ _ cs => cs end.

(** [parent.append(child)] of the XML library: [child] becomes the last
    child of [parent]. *)
Definition append (parent child : Element) : Element :=
  match parent with
  | Elem t a x cs => Elem t a x (cs ++ [child])
  end.

(** Modelled from the spec: [util.create_element] and [util.add_xml_child]
    are not among the sources; the element construction facility is opaque.
    [create_element] makes an element with the given name and attributes and
    no child; [add_xml_child] appends a child that holds a text value. *)
Definition create_element (name : string) (attrs : list (string * string)) : Element :=
  Elem name attrs None [].

Definition add_xml_child (tree : Element) (name value : string) : Element :=
  append tree (Elem name [] (Some value) []).

(** Modelled from the spec: [credentials.IMPERSONATION] and the account and
    timezone objects are not among the sources.  An account carries its access
    type and primary address; a timezone carries its identifier. *)
Definition IMPERSONATION : string := "impersonation".

Record Account : Type := MkAccount {
  access_type : string;
  primary_smtp_address : string
}.

Record EWSTimeZone : Type := MkEWSTimeZone {
  ms_id : string
}.

(** The element tree that [wrap] hands to the serializer. *)
Definition envelope_of (content : Element) (version : string)
  (account : option Account) (ewstimezone : option EWSTimeZone) : Element :=
  let envelope :=
    create_element "s:Envelope"
      [("xmlns:s", SOAPNS); ("xmlns:t", TNS); ("xmlns:m", MNS)] in
  let header := create_element "s:Header" [] in
  let requestserverversion :=
    create_element "t:RequestServerVersion" [("Version", version)] in
  let header := append header requestserverversion in
  let header :=
    match account with
    | Some a =>
        if String.eqb (access_type a) IMPERSONATION then
          let exchangeimpersonation := create_element "t:ExchangeImpersonation" [] in
          let connectingsid := create_element "t:ConnectingSID" [] in
          let connectingsid :=
            add_xml_child connectingsid "t:PrimarySmtpAddress" (primary_smtp_address a) in
          let exchangeimpersonation := append exchangeimpersonation connectingsid in
          append header exchangeimpersonation
        else header
    | None => header
    end in
  let header :=
    match ewstimezone with
    | Some tz =>
        let timezonecontext := create_element "t:TimeZoneContext" [] in
        let timezonedefinition :=
          create_element "t:TimeZoneDefinition" [("Id", ms_id tz)] in
        let timezonecontext := append timezonecontext timezonedefinition in
        append header timezonecontext
    | None => header
    end in
  let envelope := append envelope header in
  let body := create_element "s:Body" [] in
  let body := append body content in
  append envelope body.

Section Wrap.

(** [util.xml_to_str] is not among the sources: the serializer, with its
    [encoding] and [xml_declaration] arguments, is a parameter. *)
Context {Bytes : Type}.
Variable xml_to_str : Element -> string -> bool -> Bytes.

Definition wrap (content : Element) (version : string) (account : option Account)
  (ewstimezone : option EWSTimeZone) (encoding : string) : Bytes :=
  xml_to_str (envelope_of content version account ewstimezone) encoding true.

End Wrap.

(** ** The HTTP session *)

Inductive Method : Type := HEAD | GET | POST.

(** The arguments of one call of [s.head], [s.get] or [s.post]. *)
Record Request : Type := MkRequest {
  method : Method;
  url : string;
  req_headers : list (string * string);
  data : option string;
  timeout : option Z;
  allow_redirects : bool;
  verify : bool
}.

(** A [requests] session together with the remote end it talks to: the state
    of the remote end and the requests sent so far, oldest first. *)
Record Session (Server : Type) : Type := MkSession {
  remote : Server;
  sent : list Request
}.
Arguments MkSession {Server} remote sent.
Arguments remote {Server} s.
Arguments sent {Server} s.

Section Probes.

Context {Server : Type}.

(** The HTTP client and the remote end: one exchange answers a request and
    moves the remote end to its next state.  Here every request gets an
    answer; the service probe on a client that may fail with an exception of
    its own (a connection error, a timeout) is modelled in [Net] below. *)
Variable exchange : Request -> Server -> Response * Server.

(** [services.ResolveNames(...).payload(version=..., ...)] is not among the
    sources: the builder of the dummy request is a parameter. *)
Variable dummy_xml : string -> string -> string.

(** [errors.py] is not among the sources: which exceptions the clause
    [except TransportError] catches is a parameter. *)
Variable isinstance_TransportError : exn -> bool.

Definition send (req : Request) (s : Session Server) : Response * Session Server :=
  let '(r, remote') := exchange req (remote s) in
  (r, {| remote := remote'; sent := sent s ++ [req] |}).

Definition content_type : list (string * string) :=
  [("Content-Type", "text/xml; charset=utf-8")].

Definition get_autodiscover_authtype (service_endpoint data : string) (timeout : Z)
  (verify : bool) (remote0 : Server) : result string * Session Server :=
  let headers := content_type in
  let s := {| remote := remote0; sent := [] |} in
  let '(r, s) :=
    send {| method := HEAD; url := service_endpoint; req_headers := headers;
            data := None; timeout := Some timeout; allow_redirects := false;
            verify := verify |} s in
  let post (s : Session Server) :=
    let '(r, s) :=
      send {| method := POST; url := service_endpoint; req_headers := headers;
              data := Some data; timeout := Some timeout; allow_redirects := false;
              verify := verify |} s in
    (_get_auth_method_from_response r, s) in
  if status_code r =? 302 then
    match get_redirect_url r true true with
    | Raise (RelativeRedirect value) => (Raise (RedirectError value), s)
    | Raise e => (Raise e, s)
    | Return _ => post s
    end
  else post s.

Definition get_docs_authtype (docs_url : string) (verify : bool) (remote0 : Server)
  : result string * Session Server :=
  let headers := content_type in
  let s := {| remote := remote0; sent := [] |} in
  let '(r, s) :=
    send {| method := GET; url := docs_url; req_headers := headers; data := None;
            timeout := None; allow_redirects := true; verify := verify |} s in
  (_get_auth_method_from_response r, s).

(** The request that the service probe sends for one version. *)
Definition service_request (service_endpoint : string) (verify : bool) (name version : string)
  : Request :=
  {| method := POST; url := service_endpoint; req_headers := content_type;
     data := Some (dummy_xml version name); timeout := None;
     allow_redirects := true; verify := verify |}.

(** The loop [for version in versions] and the [raise] that follows it. *)
Fixpoint service_loop (service_endpoint : string) (verify : bool) (name : string)
  (versions : list string) (s : Session Server) : result string * Session Server :=
  match versions with
  | [] => (Raise (TransportError "Failed to get auth type from service"), s)
  | version :: versions' =>
      let '(r, s) := send (service_request service_endpoint verify name version) s in
      match _get_auth_method_from_response r with
      | Return auth_type => (Return auth_type, s)
      | Raise e =>
          if isinstance_TransportError e
          then service_loop service_endpoint verify name versions' s
          else (Raise e, s)
      end
  end.

Definition get_service_authtype (service_endpoint : string) (versions : list string)
  (verify : bool) (name : string) (remote0 : Server) : result string * Session Server :=
  service_loop service_endpoint verify name versions {| remote := remote0; sent := [] |}.

(** The responses to the service requests for [versions], sent one after
    another from the session [s], and the session they leave. *)
Fixpoint post_all (service_endpoint : string) (verify : bool) (name : string)
  (versions : list string) (s : Session Server) : list Response * Session Server :=
  match versions with
  | [] => ([], s)
  | version :: versions' =>
      let '(r, s) := send (service_request service_endpoint verify name version) s in
      let '(rs, s) := post_all service_endpoint verify name versions' s in
      (r :: rs, s)
  end.

(** A response whose classification is a failure that the service probe
    catches and folds into the next version. *)
Definition folded (r : Response) : bool :=
  match _get_auth_method_from_response r with
  | Return _ => false
  | Raise e => isinstance_TransportError e
  end.

End Probes.

(** ** Vocabulary of the tokenizer's properties *)

(** Every character of a string passes a test. *)
Fixpoint string_forall (P : ascii -> bool) (s : string) : bool :=
  match s with
  | EmptyString => true
  | String c s' => P c && string_forall P s'
  end.

(** The double quote as a string. *)
Definition dq : string := Py.chr Py.dquote.

(** A character that is neither a separator nor a double quote. *)
Definition plain_char (c : ascii) : bool :=
  negb (is_separator c) && negb (Ascii.eqb c Py.dquote).

(** A run of characters without separators and double quotes. *)
Definition plain (w : string) : bool := string_forall plain_char w.

(** A run of characters without double quotes: the inside of a quoted span. *)
Definition unquoted (w : string) : bool :=
  string_forall (fun c => negb (Ascii.eqb c Py.dquote)) w.

(** The input without its separators that stand outside quotes: what the
    scan may not lose.  [in_quote] tells whether the scan is inside a quoted
    span. *)
Fixpoint significant (in_quote : bool) (val : string) : string :=
  match val with
  | EmptyString => EmptyString
  | String c val' =>
      if is_separator c && negb in_quote then significant in_quote val'
      else String c (significant (if Ascii.eqb c Py.dquote then negb in_quote else in_quote) val')
  end.

(** The tokens glued together. *)
Definition glue (ts : list string) : string := fold_right String.append EmptyString ts.

(** The state in which the scan starts. *)
Definition tok_init : tok_state := {| tokens := []; token := EmptyString; quote := false |}.

(** What the scan knows about its current token: inside quotes it is neither
    empty nor a lone comma, outside quotes it holds no separator. *)
Definition tok_inv (st : tok_state) : bool :=
  if quote st then keeps_token (token st)
  else string_forall (fun c => negb (is_separator c)) (token st).

(** The characters seen so far: the emitted tokens and the current one. *)
Definition seen (st : tok_state) : string := glue (tokens st) +:+ token st.

(** ** Vocabulary of the other properties *)

(** The failures of the classifier's contract: [UnauthorizedError],
    [TransportError] (a circular redirect, an unexpected status) and
    [RedirectError].  Any other exception that escapes, a built-in one in
    particular, is unclassified. *)
Definition classified (e : exn) : bool :=
  match e with
  | UnauthorizedError _ | TransportError _ | RedirectError _ => true
  | RelativeRedirect _ | ValueError _ | IndexError _ | AttributeError _ => false
  end.

Definition classified_outcome {A : Type} (r : result A) : bool :=
  match r with
  | Return _ => true
  | Raise e => classified e
  end.

(** The character [=] occurs in a string. *)
Fixpoint has_equals (s : string) : bool :=
  match s with
  | EmptyString => false
  | String c s' => Ascii.eqb c "="%char || has_equals s'
  end.

(** Every token that starts with [realm] holds an [=]. *)
Definition realms_well_formed (vals : list string) : bool :=
  forallb (fun v => negb (Py.startswith v "realm") || has_equals v) vals.

(** The challenge headers of a response: the token lists of the headers
    named www-authenticate, in the order of [headers.items()]. *)
Definition challenges (items : list (string * string)) : list (list string) :=
  map (fun kv => _tokenize (Py.lower (snd kv)))
      (filter (fun kv => Py.lower (fst kv) = "www-authenticate") items).

(** The scheme preferred among the tokens of one challenge. *)
Definition preferred (vals : list string) : option string :=
  if bool_decide ("digest" ∈ vals) then Some DIGEST
  else if bool_decide ("ntlm" ∈ vals) then Some NTLM
  else if bool_decide ("basic" ∈ vals) then Some BASIC
  else None.

(** The preferred scheme of the first challenge that names one. *)
Fixpoint first_preferred (cs : list (list string)) : option string :=
  match cs with
  | [] => None
  | vals :: cs' =>
      match preferred vals with
      | Some auth_type => Some auth_type
      | None => first_preferred cs'
      end
  end.

(** A response with status 401 and the given headers. *)
Definition challenge_response (items : list (string * string)) : Response :=
  {| status_code := 401; reason := "Unauthorized"; headers := items;
     text := EmptyString;
     request_url := {| has_ssl := true; server := "host1"; path := "/EWS/Exchange.asmx" |};
     location := None |}.

(** A response with status 302 to a request for [request] whose Location
    header names [target]. *)
Definition redirect_response (request : Url) (target : option Url) : Response :=
  {| status_code := 302; reason := "Found"; headers := [];
     text := EmptyString; request_url := request; location := target |}.

(** A string contains another one, letter case apart. *)
Definition contains_ci (s sub : string) : Prop :=
  exists a m b, s = a +:+ m +:+ b /\ Py.lower m = Py.lower sub.

(** The impersonation identity of the envelope context: the primary address
    of an account whose access type is impersonation. *)
Definition impersonation_identity (account : option Account) : option string :=
  match account with
  | Some a =>
      if String.eqb (access_type a) IMPERSONATION
      then Some (primary_smtp_address a) else None
  | None => None
  end.

(** The timezone identifier of the envelope context. *)
Definition timezone_id (ewstimezone : option EWSTimeZone) : option string :=
  match ewstimezone with
  | Some tz => Some (ms_id tz)
  | None => None
  end.

(** The three blocks of the header. *)
Definition version_element (version : string) : Element :=
  Elem "t:RequestServerVersion" [("Version", version)] None [].

Definition impersonation_block (address : string) : Element :=
  Elem "t:ExchangeImpersonation" [] None
    [Elem "t:ConnectingSID" [] None
       [Elem "t:PrimarySmtpAddress" [] (Some address) []]].

Definition timezone_block (id : string) : Element :=
  Elem "t:TimeZoneContext" [] None [Elem "t:TimeZoneDefinition" [("Id", id)] None []].

(** The exception classes that [except TransportError] catches when the
    redirect errors derive from [TransportError]. *)
Definition derives_from_TransportError (e : exn) : bool :=
  match e with
  | TransportError _ | RedirectError _ | RelativeRedirect _ => true
  | UnauthorizedError _ | ValueError _ | IndexError _ | AttributeError _ => false
  end.

(** ** A scripted remote end *)

(** A remote end that answers the requests with the responses of a script, one
    after another, and with a plain 200 once the script is used up. *)
Definition scripted (req : Request) (script : list Response)
  : Response * list Response :=
  match script with
  | r :: script' => (r, script')
  | [] =>
      ({| status_code := 200; reason := "OK"; headers := []; text := EmptyString;
          request_url := {| has_ssl := true; server := "host1"; path := url req |};
          location := None |}, [])
  end.

(** A response with an unexpected status. *)
Definition server_error : Response :=
  {| status_code := 500; reason := "Internal Server Error"; headers := [];
     text := EmptyString;
     request_url := {| has_ssl := true; server := "host1"; path := "/EWS/Exchange.asmx" |};
     location := None |}.

(** A dummy request builder. *)
Definition example_dummy_xml (version name : string) : string :=
  "<m:ResolveNames version='" +:+ version +:+ "'>" +:+ name +:+ "</m:ResolveNames>".

(** ** Vocabulary of the further properties *)

(** The scan state with every token in lower case. *)
Definition lower_state (st : tok_state) : tok_state :=
  {| tokens := map Py.lower (tokens st); token := Py.lower (token st); quote := quote st |}.

(** The shapes a token can have: a plain run, a plain run followed by a
    quoted span, or a plain run followed by a span whose quote is left open. *)
Definition token_shape (t : string) : Prop :=
  plain t = true
  \/ exists w s : string,
       plain w = true /\ unquoted s = true
       /\ (t = w +:+ dq +:+ s +:+ dq \/ t = w +:+ dq +:+ s).

(** What the scan knows about the shape of its tokens. *)
Definition shaped (st : tok_state) : Prop :=
  Forall token_shape (tokens st)
  /\ if quote st
     then exists w s : string,
            plain w = true /\ unquoted s = true /\ token st = w +:+ dq +:+ s
     else plain (token st) = true.

(** The auth types for which [AUTH_TYPE_MAP] has an entry that the classifier
    can return. *)
Definition negotiable : list string := [NOAUTH; DIGEST; NTLM; BASIC].

(** A header with its name and value in lower case. *)
Definition lower_header (kv : string * string) : string * string :=
  (Py.lower (fst kv), Py.lower (snd kv)).

(** The headers named www-authenticate, letter case apart. *)
Definition challenge_headers (items : list (string * string)) : list (string * string) :=
  filter (fun kv => Py.lower (fst kv) = "www-authenticate") items.

(** A string of ASCII characters, on which [lower] is Python's [str.lower]:
    every character code is below 128. *)
Definition is_ascii (s : string) : bool :=
  string_forall (fun c => (N_of_ascii c <? 128)%N) s.

(** The two requests of the autodiscover probe. *)
Definition autodiscover_head (service_endpoint : string) (timeout : Z) (verify : bool)
  : Request :=
  {| method := HEAD; url := service_endpoint; req_headers := content_type;
     data := None; timeout := Some timeout; allow_redirects := false;
     verify := verify |}.

Definition autodiscover_post (service_endpoint data : string) (timeout : Z) (verify : bool)
  : Request :=
  {| method := POST; url := service_endpoint; req_headers := content_type;
     data := Some data; timeout := Some timeout; allow_redirects := false;
     verify := verify |}.

(** The request of the document probe. *)
Definition docs_get (docs_url : string) (verify : bool) : Request :=
  {| method := GET; url := docs_url; req_headers := content_type; data := None;
     timeout := None; allow_redirects := true; verify := verify |}.

(** ** The service probe on an HTTP client that may fail *)

(** What one call of [s.post] does: it returns a response, or the HTTP client
    raises an exception of its own (a connection error, a timeout), which is
    none of the classes of the module. *)
Inductive Attempt : Type :=
| Answered (r : Response)
| ClientError (value : string).

(** How a probe ends on such a client: with a returned value or a raised
    exception of the module, or with the exception of the client that passed
    through it. *)
Inductive Outcome (A : Type) : Type :=
| Finished (r : result A)
| Escaped (value : string).
Arguments Finished {A} r.
Arguments Escaped {A} value.

Module Net.

Section Probe.

Context {Server : Type}.

(** The HTTP client and the remote end: an attempt answers the request or
    fails, and moves the remote end to its next state. *)
Variable attempt : Request -> Server -> Attempt * Server.
Variable dummy_xml : string -> string -> string.
Variable isinstance_TransportError : exn -> bool.

Definition send (req : Request) (s : Session Server) : Attempt * Session Server :=
  let '(a, remote') := attempt req (remote s) in
  (a, {| remote := remote'; sent := sent s ++ [req] |}).

(** The loop [for version in versions] and the [raise] that follows it.  The
    call [s.post] stands before the [try]: an exception of the client leaves
    the loop, and only the exceptions of the classifier meet the clause
    [except TransportError]. *)
Fixpoint service_loop (service_endpoint : string) (verify : bool) (name : string)
  (versions : list string) (s : Session Server) : Outcome string * Session Server :=
  match versions with
  | [] => (Finished (Raise (TransportError "Failed to get auth type from service")), s)
  | version :: versions' =>
      let '(a, s) :=
        send (service_request dummy_xml service_endpoint verify name version) s in
      match a with
      | ClientError value => (Escaped value, s)
      | Answered r =>
          match _get_auth_method_from_response r with
          | Return auth_type => (Finished (Return auth_type), s)
          | Raise e =>
              if isinstance_TransportError e
              then service_loop service_endpoint verify name versions' s
              else (Finished (Raise e), s)
          end
      end
  end.

Definition get_service_authtype (service_endpoint : string) (versions : list string)
  (verify : bool) (name : string) (remote0 : Server) : Outcome string * Session Server :=
  service_loop service_endpoint verify name versions {| remote := remote0; sent := [] |}.

(** The attempts for [versions], made one after another from the session
    [s], and the session they leave. *)
Fixpoint attempt_all (service_endpoint : string) (verify : bool) (name : string)
  (versions : list string) (s : Session Server) : list Attempt * Session Server :=
  match versions with
  | [] => ([], s)
  | version :: versions' =>
      let '(a, s) :=
        send (service_request dummy_xml service_endpoint verify name version) s in
      let '(rest, s) := attempt_all service_endpoint verify name versions' s in
      (a :: rest, s)
  end.

(** An attempt that the probe folds into the next version: it was answered,
    and the classification of the answer is a failure that
    [except TransportError] catches. *)
Definition folded (a : Attempt) : bool :=
  match a with
  | Answered r => folded isinstance_TransportError r
  | ClientError _ => false
  end.

End Probe.

(** A client that always gets an answer. *)
Definition answering {Server : Type} (exchange : Request -> Server -> Response * Server)
  (req : Request) (remote0 : Server) : Attempt * Server :=
  let '(r, remote') := exchange req remote0 in (Answered r, remote').

(** A remote end that meets the requests with the attempts of a script, one
    after another, and with a connection error once the script is used up. *)
Definition scripted (req : Request) (script : list Attempt)
  : Attempt * list Attempt :=
  match script with
  | a :: script' => (a, script')
  | [] => (ClientError "Connection refused", [])
  end.

End Net.

(** * Properties *)

(** ** Strings *)

Lemma sapp_cons (c : ascii) (a b : string) :
  String c a +:+ b = String c (a +:+ b).
Proof. reflexivity. Qed.

Lemma sapp_nil_l (a : string) : EmptyString +:+ a = a.
Proof. reflexivity. Qed.

Lemma sapp_nil_r (a : string) : a +:+ EmptyString = a.
Proof. induction a as [|c a IH]; [reflexivity|]. rewrite sapp_cons, IH. reflexivity. Qed.

Lemma sapp_assoc (a b c : string) : (a +:+ b) +:+ c = a +:+ b +:+ c.
Proof.
  induction a as [|x a IH]; [reflexivity|].
  rewrite !sapp_cons, IH. reflexivity.
Qed.

Lemma sapp_eq_nil (a b : string) : a +:+ b = EmptyString -> a = EmptyString /\ b = EmptyString.
Proof. destruct a; [auto|]. rewrite sapp_cons. discriminate. Qed.

Lemma truthy_true (s : string) : Py.truthy s = true <-> s <> EmptyString.
Proof. destruct s; simpl; split; congruence. Qed.

Lemma string_forall_app (P : ascii -> bool) (a b : string) :
  string_forall P (a +:+ b) = string_forall P a && string_forall P b.
Proof.
  induction a as [|x a IH]; [reflexivity|].
  rewrite sapp_cons. simpl. rewrite IH, andb_assoc. reflexivity.
Qed.

(** ** The tokenizer *)

Module Tokenizer.

Lemma glue_app (a b : list string) : glue (a ++ b) = glue a +:+ glue b.
Proof.
  induction a as [|t a IH]; [reflexivity|].
  simpl. unfold glue in *. simpl. rewrite IH, sapp_assoc. reflexivity.
Qed.

Lemma tok_loop_app (a b : string) (st : tok_state) :
  tok_loop (a +:+ b) st = tok_loop b (tok_loop a st).
Proof.
  revert st. induction a as [|c a IH]; intros st; [reflexivity|].
  rewrite sapp_cons. simpl. apply IH.
Qed.

(** Tokens that were emitted before are never touched again. *)
Lemma tok_step_emitted (ts0 : list string) (st : tok_state) (c : ascii) :
  tok_step {| tokens := ts0 ++ tokens st; token := token st; quote := quote st |} c
  = {| tokens := ts0 ++ tokens (tok_step st c);
       token := token (tok_step st c);
       quote := quote (tok_step st c) |}.
Proof.
  unfold tok_step; simpl.
  destruct (is_separator c && negb (quote st)).
  - destruct (keeps_token (token st)); simpl; rewrite ?app_assoc; reflexivity.
  - destruct (Ascii.eqb c Py.dquote); [|reflexivity].
    destruct (quote st); simpl; rewrite ?app_assoc; reflexivity.
Qed.

Lemma tok_loop_emitted (val : string) (ts0 : list string) (st : tok_state) :
  tok_loop val {| tokens := ts0 ++ tokens st; token := token st; quote := quote st |}
  = {| tokens := ts0 ++ tokens (tok_loop val st);
       token := token (tok_loop val st);
       quote := quote (tok_loop val st) |}.
Proof.
  revert st. induction val as [|c val IH]; intros st; simpl.
  - reflexivity.
  - rewrite tok_step_emitted. apply IH.
Qed.

(** Scanning a plain run outside quotes extends the current token. *)
Lemma tok_loop_plain (w : string) (ts : list string) (t : string) :
  plain w = true ->
  tok_loop w {| tokens := ts; token := t; quote := false |}
  = {| tokens := ts; token := t +:+ w; quote := false |}.
Proof.
  revert t. induction w as [|c w IH]; intros t Hw; simpl.
  - rewrite sapp_nil_r. reflexivity.
  - simpl in Hw. apply andb_true_iff in Hw as [Hc Hw].
    unfold plain_char in Hc. apply andb_true_iff in Hc as [Hs Hq].
    apply negb_true_iff in Hs, Hq.
    unfold tok_step; simpl. rewrite Hs, Hq. simpl.
    rewrite (IH _ Hw). unfold Py.chr. rewrite sapp_assoc. reflexivity.
Qed.

(** Scanning inside quotes keeps every character, separators included. *)
Lemma tok_loop_unquoted (w : string) (ts : list string) (t : string) :
  unquoted w = true ->
  tok_loop w {| tokens := ts; token := t; quote := true |}
  = {| tokens := ts; token := t +:+ w; quote := true |}.
Proof.
  revert t. induction w as [|c w IH]; intros t Hw; simpl.
  - rewrite sapp_nil_r. reflexivity.
  - simpl in Hw. apply andb_true_iff in Hw as [Hq Hw].
    apply negb_true_iff in Hq.
    unfold tok_step; simpl. rewrite andb_false_r, Hq.
    rewrite (IH _ Hw). unfold Py.chr. rewrite sapp_assoc. reflexivity.
Qed.

Lemma plain_not_keeps (w : string) :
  plain w = true -> keeps_token w = Py.truthy w.
Proof.
  destruct w as [|c w]; [reflexivity|]. intros Hw. simpl in *.
  apply andb_true_iff in Hw as [Hc _].
  unfold plain_char in Hc. apply andb_true_iff in Hc as [Hs _].
  apply negb_true_iff in Hs. unfold is_separator in Hs.
  apply orb_false_iff in Hs as [_ Hs].
  unfold keeps_token. simpl.
  destruct w; simpl; rewrite Hs; reflexivity.
Qed.

(** The scan restarts afresh at every token boundary. *)
Lemma tokenize_boundary (a b : string) :
  token (tok_loop a tok_init) = EmptyString ->
  quote (tok_loop a tok_init) = false ->
  _tokenize (a +:+ b) = _tokenize a ++ _tokenize b.
Proof.
  intros Ht Hq. unfold _tokenize. fold tok_init.
  rewrite tok_loop_app.
  destruct (tok_loop a tok_init) as [ts t qu] eqn:E. simpl in Ht, Hq. subst t qu.
  pose proof (tok_loop_emitted b ts tok_init) as H. simpl in H.
  rewrite app_nil_r in H. rewrite H.
  unfold tok_finish; simpl.
  destruct (Py.truthy (token (tok_loop b tok_init))); rewrite ?app_assoc; reflexivity.
Qed.


Lemma keeps_token_snoc (t : string) (c : ascii) :
  Py.truthy t = true \/ Ascii.eqb c ","%char = false ->
  keeps_token (t +:+ Py.chr c) = true.
Proof.
  unfold keeps_token, Py.chr. destruct t as [|a t].
  - intros [H|H]; [discriminate|]. simpl. rewrite H. reflexivity.
  - intros _. rewrite sapp_cons. destruct t as [|b t].
    + simpl. destruct (a =? ",")%char; reflexivity.
    + rewrite sapp_cons. simpl. destruct (a =? ",")%char; reflexivity.
Qed.

Lemma keeps_token_truthy (t : string) : keeps_token t = true -> Py.truthy t = true.
Proof. destruct t; [discriminate|reflexivity]. Qed.

Lemma no_separator_keeps (t : string) :
  string_forall (fun c => negb (is_separator c)) t = true ->
  keeps_token t = Py.truthy t.
Proof.
  destruct t as [|c t]; [reflexivity|]. simpl. intros H.
  apply andb_true_iff in H as [Hs _]. apply negb_true_iff in Hs.
  unfold is_separator in Hs. apply orb_false_iff in Hs as [_ Hs].
  unfold keeps_token. simpl. destruct t; simpl; rewrite Hs; reflexivity.
Qed.

Lemma tok_step_inv (st : tok_state) (c : ascii) :
  tok_inv st = true -> tok_inv (tok_step st c) = true.
Proof.
  unfold tok_inv, tok_step. destruct st as [ts t qu]; simpl.
  destruct qu; simpl; intros H.
  - rewrite andb_false_r. destruct (Ascii.eqb c Py.dquote) eqn:Hq; simpl.
    + reflexivity.
    + apply keeps_token_snoc. left. apply keeps_token_truthy, H.
  - rewrite andb_true_r. destruct (is_separator c) eqn:Hs; simpl; [reflexivity|].
    destruct (Ascii.eqb c Py.dquote) eqn:Hq; simpl.
    + apply keeps_token_snoc. right. apply Ascii.eqb_eq in Hq. subst c. reflexivity.
    + unfold Py.chr. rewrite string_forall_app, H. simpl. rewrite Hs. reflexivity.
Qed.

Lemma tok_loop_inv (val : string) (st : tok_state) :
  tok_inv st = true -> tok_inv (tok_loop val st) = true.
Proof.
  revert st. induction val as [|c val IH]; intros st H; simpl; [exact H|].
  apply IH, tok_step_inv, H.
Qed.

(** Only kept tokens are emitted. *)
Lemma tok_step_kept (st : tok_state) (c : ascii) :
  tok_inv st = true ->
  Forall (fun t => keeps_token t = true) (tokens st) ->
  Forall (fun t => keeps_token t = true) (tokens (tok_step st c)).
Proof.
  unfold tok_inv, tok_step. destruct st as [ts t qu]; simpl. intros Hi Hts.
  destruct (is_separator c && negb qu) eqn:Hsep; simpl.
  - destruct (keeps_token t) eqn:Hk; [|exact Hts].
    apply Forall_app; split; [exact Hts|]. constructor; [exact Hk|constructor].
  - destruct (Ascii.eqb c Py.dquote) eqn:Hq; [|exact Hts].
    destruct qu; simpl; [|exact Hts].
    apply Forall_app; split; [exact Hts|]. constructor; [|constructor].
    apply keeps_token_snoc. left. apply keeps_token_truthy, Hi.
Qed.

Lemma tok_loop_kept (val : string) (st : tok_state) :
  tok_inv st = true ->
  Forall (fun t => keeps_token t = true) (tokens st) ->
  Forall (fun t => keeps_token t = true) (tokens (tok_loop val st)).
Proof.
  revert st. induction val as [|c val IH]; intros st Hi Hts; simpl; [exact Hts|].
  apply IH; [apply tok_step_inv, Hi | apply tok_step_kept; assumption].
Qed.

Lemma tok_step_seen (st : tok_state) (c : ascii) :
  tok_inv st = true ->
  seen (tok_step st c)
  = seen st +:+ (if is_separator c && negb (quote st) then EmptyString else Py.chr c).
Proof.
  unfold tok_inv, tok_step, seen. destruct st as [ts t qu]; simpl. intros Hi.
  destruct (is_separator c && negb qu) eqn:Hsep; simpl.
  - apply andb_true_iff in Hsep as [_ Hqu]. apply negb_true_iff in Hqu. subst qu.
    rewrite (no_separator_keeps _ Hi).
    destruct t; simpl; rewrite ?glue_app; simpl; rewrite ?sapp_nil_r; reflexivity.
  - destruct (Ascii.eqb c Py.dquote) eqn:Hq; simpl.
    + destruct qu; simpl.
      * rewrite glue_app. simpl. rewrite !sapp_nil_r, sapp_assoc. reflexivity.
      * rewrite sapp_assoc. reflexivity.
    + rewrite sapp_assoc. reflexivity.
Qed.

Lemma tok_step_quote (st : tok_state) (c : ascii) :
  quote (tok_step st c)
  = if is_separator c && negb (quote st) then quote st
    else if Ascii.eqb c Py.dquote then negb (quote st) else quote st.
Proof.
  unfold tok_step. destruct (is_separator c && negb (quote st)); [reflexivity|].
  destruct (Ascii.eqb c Py.dquote); [|reflexivity].
  destruct (quote st); reflexivity.
Qed.

Lemma tok_loop_seen (val : string) (st : tok_state) :
  tok_inv st = true ->
  seen (tok_loop val st) = seen st +:+ significant (quote st) val.
Proof.
  revert st. induction val as [|c val IH]; intros st Hi; simpl.
  - rewrite sapp_nil_r. reflexivity.
  - rewrite (IH _ (tok_step_inv st c Hi)), (tok_step_seen st c Hi), tok_step_quote.
    destruct (is_separator c && negb (quote st)) eqn:Hsep.
    + rewrite sapp_nil_r. reflexivity.
    + rewrite sapp_assoc. reflexivity.
Qed.

Lemma tok_finish_glue (st : tok_state) : glue (tok_finish st) = seen st.
Proof.
  unfold tok_finish, seen. destruct (token st) eqn:E; simpl.
  - rewrite sapp_nil_r. reflexivity.
  - rewrite glue_app. simpl. rewrite sapp_nil_r. reflexivity.
Qed.

Lemma tok_finish_kept (st : tok_state) :
  tok_inv st = true ->
  Forall (fun t => keeps_token t = true) (tokens st) ->
  Forall (fun t => keeps_token t = true) (tok_finish st).
Proof.
  unfold tok_inv, tok_finish. destruct st as [ts t qu]; simpl. intros Hi Hts.
  destruct (Py.truthy t) eqn:Ht; [|exact Hts].
  apply Forall_app; split; [exact Hts|]. constructor; [|constructor].
  destruct qu; [exact Hi|]. rewrite (no_separator_keeps _ Hi). exact Ht.
Qed.

Lemma tokenize_kept (val : string) :
  Forall (fun t => keeps_token t = true) (_tokenize val).
Proof.
  unfold _tokenize. fold tok_init.
  apply tok_finish_kept; [apply tok_loop_inv; reflexivity|].
  apply tok_loop_kept; [reflexivity|constructor].
Qed.

End Tokenizer.

Import Tokenizer.

(** C4. For every input, [_tokenize] keeps, in order, every character except
    the spaces and commas that stand outside quotes; it emits neither an empty
    token nor the token [,]; a space or comma outside quotes ends the current
    token; a quoted span is kept whole, separators included, and its token is
    emitted at the closing quote whatever follows; the residual token is
    emitted at the end of the scan; and the lower-cased header
    [ntlm, basic realm=<quote>a, b<quote>] yields the three tokens [ntlm],
    [basic] and [realm=<quote>a, b<quote>] in that order. *)
Theorem tokenize_spec :
  (forall val, glue (_tokenize val) = significant false val) /\
  (forall val t, t ∈ _tokenize val -> t <> EmptyString /\ t <> ",") /\
  (forall w sep rest, plain w = true -> is_separator sep = true ->
     _tokenize (w +:+ Py.chr sep +:+ rest)
     = (if Py.truthy w then [w] else []) ++ _tokenize rest) /\
  (forall w s rest, plain w = true -> unquoted s = true ->
     _tokenize (w +:+ dq +:+ s +:+ dq +:+ rest)
     = (w +:+ dq +:+ s +:+ dq) :: _tokenize rest) /\
  (forall w, plain w = true -> _tokenize w = if Py.truthy w then [w] else []) /\
  (forall w s, plain w = true -> unquoted s = true ->
     _tokenize (w +:+ dq +:+ s) = [w +:+ dq +:+ s]) /\
  _tokenize ("ntlm, basic realm=" +:+ dq +:+ "a, b" +:+ dq)
  = ["ntlm"; "basic"; "realm=" +:+ dq +:+ "a, b" +:+ dq].
Proof.
  assert (Hplain : forall w, plain w = true ->
            tok_loop w tok_init = {| tokens := []; token := w; quote := false |}).
  { intros w Hw. unfold tok_init. rewrite (tok_loop_plain w [] EmptyString Hw). reflexivity. }
  assert (Hopen : forall w, plain w = true ->
            tok_loop (w +:+ dq) tok_init
            = {| tokens := []; token := w +:+ dq; quote := true |}).
  { intros w Hw. rewrite tok_loop_app, (Hplain w Hw). reflexivity. }
  repeat apply conj.
  - intros val. unfold _tokenize. fold tok_init.
    rewrite tok_finish_glue, (tok_loop_seen val tok_init eq_refl). reflexivity.
  - intros val t H. pose proof (tokenize_kept val) as Hk. rewrite Forall_forall in Hk.
    specialize (Hk t H). split; intros ->; discriminate Hk.
  - intros w sep rest Hw Hsep.
    rewrite <- sapp_assoc.
    assert (Hst : tok_loop (w +:+ Py.chr sep) tok_init
                  = {| tokens := if Py.truthy w then [w] else [];
                       token := EmptyString; quote := false |}).
    { rewrite tok_loop_app, (Hplain w Hw). simpl. unfold tok_step. simpl.
      rewrite Hsep. simpl. rewrite (plain_not_keeps w Hw).
      destruct (Py.truthy w); reflexivity. }
    rewrite tokenize_boundary by (rewrite Hst; reflexivity).
    f_equal. unfold _tokenize. fold tok_init. rewrite Hst. reflexivity.
  - intros w s rest Hw Hs.
    replace (w +:+ dq +:+ s +:+ dq +:+ rest) with ((w +:+ dq +:+ s +:+ dq) +:+ rest)
      by (rewrite !sapp_assoc; reflexivity).
    assert (Hst : tok_loop (w +:+ dq +:+ s +:+ dq) tok_init
                  = {| tokens := [w +:+ dq +:+ s +:+ dq];
                       token := EmptyString; quote := false |}).
    { replace (w +:+ dq +:+ s +:+ dq) with ((w +:+ dq) +:+ s +:+ dq)
        by (rewrite !sapp_assoc; reflexivity).
      rewrite tok_loop_app, (Hopen w Hw), tok_loop_app.
      rewrite (tok_loop_unquoted s [] (w +:+ dq) Hs). simpl.
      unfold tok_step. simpl. rewrite !sapp_assoc. reflexivity. }
    rewrite tokenize_boundary by (rewrite Hst; reflexivity).
    unfold _tokenize at 1. fold tok_init. rewrite Hst. reflexivity.
  - intros w Hw. unfold _tokenize. fold tok_init. rewrite (Hplain w Hw).
    unfold tok_finish. simpl. destruct (Py.truthy w); reflexivity.
  - intros w s Hw Hs. unfold _tokenize. fold tok_init.
    replace (w +:+ dq +:+ s) with ((w +:+ dq) +:+ s) by (rewrite !sapp_assoc; reflexivity).
    rewrite tok_loop_app, (Hopen w Hw), (tok_loop_unquoted s [] (w +:+ dq) Hs).
    unfold tok_finish. simpl.
    destruct ((w +:+ dq) +:+ s) eqn:E; [|reflexivity].
    apply sapp_eq_nil in E as [E _]. apply sapp_eq_nil in E as [_ E]. discriminate E.
  - vm_compute. reflexivity.
Qed.

(** The tokens of a comma-separated scheme list with a quoted realm. *)
Lemma tokenize_spec_witness :
  _tokenize ("ntlm" +:+ Py.chr ","%char +:+ " basic")
  = (if Py.truthy "ntlm" then ["ntlm"] else []) ++ _tokenize " basic"
  /\ _tokenize ("realm=" +:+ dq +:+ "a, b" +:+ dq +:+ "x")
     = ("realm=" +:+ dq +:+ "a, b" +:+ dq) :: _tokenize "x".
Proof.
  split.
  - apply (proj1 (proj2 (proj2 tokenize_spec))); reflexivity.
  - apply (proj1 (proj2 (proj2 (proj2 tokenize_spec)))); reflexivity.
Defined.

(** ** The response classifier *)

Module Classifier.

Lemma split_second (s : string) :
  has_equals s = true <-> is_Some (Py.split "=" s !! 1%nat).
Proof.
  induction s as [|c s IH]; simpl.
  - split; [discriminate|]. intros [x Hx]. discriminate.
  - destruct (Ascii.eqb c "=") eqn:Hc; simpl.
    + split; [|reflexivity]. intros _.
      destruct (Py.split "=" s) as [|p ps] eqn:E; [|eexists; reflexivity].
      destruct s; simpl in E; [discriminate|].
      destruct (Ascii.eqb a "="); [discriminate|].
      destruct (Py.split "=" s); discriminate.
    + destruct (Py.split "=" s) as [|p ps] eqn:E; simpl.
      * rewrite IH. reflexivity.
      * rewrite IH. reflexivity.
Qed.

Lemma realm_of_ok (v : string) :
  has_equals v = true -> exists realm, realm_of v = Return realm.
Proof.
  intros H. apply split_second in H as [piece H].
  unfold realm_of. rewrite H. eexists. reflexivity.
Qed.

Lemma realm_of_fails (v : string) :
  has_equals v = false -> realm_of v = Raise (IndexError "list index out of range").
Proof.
  intros H. unfold realm_of.
  destruct (Py.split "=" v !! 1%nat) eqn:E; [|reflexivity].
  assert (has_equals v = true) by (apply split_second; eexists; exact E). congruence.
Qed.

(** The realm loop succeeds exactly on well-formed realm tokens, and fails
    with [IndexError] otherwise. *)
Lemma log_realms_ok (vals : list string) :
  realms_well_formed vals = true -> log_realms vals = Return tt.
Proof.
  induction vals as [|v vals IH]; simpl; [reflexivity|].
  intros H. apply andb_true_iff in H as [Hv Hvals].
  destruct (Py.startswith v "realm"); simpl in *; [|apply IH, Hvals].
  destruct (realm_of_ok v Hv) as [realm ->]. simpl. apply IH, Hvals.
Qed.

Lemma log_realms_fails (vals : list string) :
  realms_well_formed vals = false ->
  log_realms vals = Raise (IndexError "list index out of range").
Proof.
  induction vals as [|v vals IH]; simpl; [discriminate|].
  intros H. apply andb_false_iff in H.
  destruct (Py.startswith v "realm"); simpl in *.
  - destruct (has_equals v) eqn:Hv.
    + destruct (realm_of_ok v Hv) as [realm ->]. simpl. apply IH.
      destruct H as [H|H]; [discriminate|exact H].
    + rewrite (realm_of_fails v Hv). reflexivity.
  - apply IH. destruct H as [H|H]; [discriminate|exact H].
Qed.

(** With well-formed realm tokens throughout, the header loop returns the
    preferred scheme of the first challenge that names a recognized scheme,
    and raises [UnauthorizedError] when no challenge does. *)
Lemma auth_from_headers_preferred (items : list (string * string)) :
  forallb realms_well_formed (challenges items) = true ->
  auth_from_headers items
  = match first_preferred (challenges items) with
    | Some auth_type => Return auth_type
    | None => Raise (UnauthorizedError
                "Got a 401, but no compatible auth type was reported by server")
    end.
Proof.
  unfold challenges.
  induction items as [|[key val] items IH]; simpl; [reflexivity|].
  rewrite filter_cons. simpl.
  destruct (String.eqb_spec (Py.lower key) "www-authenticate") as [Hk|Hk].
  - rewrite decide_True by exact Hk. simpl. intros H.
    apply andb_true_iff in H as [Hv Hrest].
    rewrite (log_realms_ok _ Hv). simpl. rewrite (IH Hrest). unfold preferred.
    repeat (match goal with |- context [bool_decide ?P] => destruct (bool_decide P) end;
            [reflexivity|]).
    reflexivity.
  - rewrite decide_False by exact Hk. intros H. apply IH, H.
Qed.

(** The preference does not depend on the order of the tokens. *)
Lemma preferred_permutation (vals vals' : list string) :
  vals ≡ₚ vals' -> preferred vals = preferred vals'.
Proof.
  intros HP. unfold preferred.
  assert (Hin : forall t : string, bool_decide (t ∈ vals) = bool_decide (t ∈ vals')).
  { intros t. apply bool_decide_ext. rewrite HP. reflexivity. }
  rewrite !Hin. reflexivity.
Qed.

(** Digest is preferred to NTLM and NTLM to Basic. *)
Lemma preferred_order (vals : list string) :
  ("digest" ∈ vals -> preferred vals = Some DIGEST)
  /\ ("digest" ∉ vals -> "ntlm" ∈ vals -> preferred vals = Some NTLM)
  /\ ("digest" ∉ vals -> "ntlm" ∉ vals -> "basic" ∈ vals -> preferred vals = Some BASIC)
  /\ ("digest" ∉ vals -> "ntlm" ∉ vals -> "basic" ∉ vals -> preferred vals = None).
Proof.
  unfold preferred. repeat apply conj; intros;
    repeat (first [rewrite bool_decide_eq_true_2 by assumption
                  |rewrite bool_decide_eq_false_2 by assumption]); reflexivity.
Qed.

(** A malformed realm token in the first challenge makes the loop fail with
    the built-in [IndexError], whatever schemes are offered. *)
Lemma auth_from_headers_malformed (key val : string) (items : list (string * string)) :
  Py.lower key = "www-authenticate" ->
  realms_well_formed (_tokenize (Py.lower val)) = false ->
  auth_from_headers ((key, val) :: items) = Raise (IndexError "list index out of range").
Proof.
  intros Hk Hv. simpl. rewrite Hk. simpl. rewrite (log_realms_fails _ Hv). reflexivity.
Qed.

(** Apart from the realm loop, every outcome of the classifier is a returned
    auth type or one of the module's own failures. *)
Lemma classified_unless_malformed (response : Response) :
  forallb realms_well_formed (challenges (headers response)) = true ->
  classified_outcome (_get_auth_method_from_response response) = true.
Proof.
  intros H. unfold _get_auth_method_from_response.
  destruct (status_code response =? 200); [reflexivity|].
  destruct (status_code response =? 302).
  - unfold get_redirect_url. destruct (location response) as [target|]; [|reflexivity].
    destruct (url_eqb target (request_url response)); [reflexivity|]. simpl.
    destruct (is_relative (request_url response) target); reflexivity.
  - destruct (negb (status_code response =? 401)); [reflexivity|].
    rewrite (auth_from_headers_preferred _ H).
    destruct (first_preferred _); reflexivity.
Qed.

(** A target in another domain or scheme is not the source. *)
Lemma cross_domain_differs (request target : Url) :
  is_relative request target = false -> url_eqb target request = false.
Proof.
  unfold is_relative, url_eqb. intros H.
  apply andb_false_iff in H as [H|H].
  - destruct (has_ssl request), (has_ssl target); try discriminate H; reflexivity.
  - rewrite (String.eqb_sym (server target)), H, andb_false_r. reflexivity.
Qed.

(** The challenge [Digest realm=<quote>x<quote>, NTLM, Basic realm=<quote>x<quote>]
    resolves to digest, and so does the same challenge with its schemes in
    the opposite order; a basic challenge resolves to basic; a response
    without a challenge is unauthorized. *)
Example classify_challenges :
  _get_auth_method_from_response
    (challenge_response
       [("WWW-Authenticate",
         "Digest realm=" +:+ dq +:+ "x" +:+ dq +:+ ", NTLM, Basic realm="
         +:+ dq +:+ "x" +:+ dq)])
  = Return DIGEST
  /\ _get_auth_method_from_response
       (challenge_response
          [("www-authenticate",
            "Basic realm=" +:+ dq +:+ "x" +:+ dq +:+ ", NTLM, Digest realm="
            +:+ dq +:+ "x" +:+ dq)])
     = Return DIGEST
  /\ _get_auth_method_from_response
       (challenge_response
          [("WWW-Authenticate", "Basic realm=" +:+ dq +:+ "x" +:+ dq)])
     = Return BASIC
  /\ _get_auth_method_from_response (challenge_response [])
     = Raise (UnauthorizedError
                "Got a 401, but no compatible auth type was reported by server").
Proof. repeat apply conj; vm_compute; reflexivity. Qed.

End Classifier.

(** C1. The classifier does select Digest before NTLM before Basic from a
    well-formed challenge, but not for every 401 response: the challenge
    [Digest realm] names the digest scheme and the classifier leaves with the
    built-in [IndexError] instead of returning it, and the challenge [realm]
    names no scheme and the classifier leaves with the same error instead of
    [UnauthorizedError]. *)
Theorem challenge_with_bare_realm_escapes :
  "digest" ∈ _tokenize (Py.lower "Digest realm")
  /\ _get_auth_method_from_response
       (challenge_response [("WWW-Authenticate", "Digest realm")])
     = Raise (IndexError "list index out of range")
  /\ preferred (_tokenize (Py.lower "realm")) = None
  /\ _get_auth_method_from_response
       (challenge_response [("WWW-Authenticate", "realm")])
     = Raise (IndexError "list index out of range").
Proof.
  repeat apply conj.
  - vm_compute. apply list_elem_of_here.
  - vm_compute. reflexivity.
  - vm_compute. reflexivity.
  - vm_compute. reflexivity.
Qed.

(** C2, as stated, fails: a redirect from [https://host1/EWS/Exchange.asmx]
    to [https://host1/owa/] is well formed, differs from the source and
    shares its scheme and host, and the classifier answers it with the
    circular-redirect failure. *)
Lemma relative_redirect_is_circular :
  is_relative (MkUrl true "host1" "/EWS/Exchange.asmx") (MkUrl true "host1" "/owa/") = true
  /\ url_eqb (MkUrl true "host1" "/owa/") (MkUrl true "host1" "/EWS/Exchange.asmx") = false
  /\ _get_auth_method_from_response
       (redirect_response (MkUrl true "host1" "/EWS/Exchange.asmx")
          (Some (MkUrl true "host1" "/owa/")))
     = Raise (TransportError "Circular redirect").
Proof. repeat apply conj; reflexivity. Qed.

(** C2, amended. On a 302 the classifier never returns an auth type.  A target
    that is well formed, differs from the source and shares scheme and host
    with the request is answered with [TransportError] carrying
    [Circular redirect]; a target that is well formed and differs from the
    request in scheme or host is answered with [RedirectError] carrying the
    target, and [RedirectError] is raised in no other case; an ill-formed or
    source-equal target is answered with a [TransportError]. *)
Theorem redirect_classification (response : Response) :
  status_code response = 302 ->
  (forall auth_type, _get_auth_method_from_response response <> Return auth_type)
  /\ (forall target,
        location response = Some target ->
        url_eqb target (request_url response) = false ->
        is_relative (request_url response) target = true ->
        _get_auth_method_from_response response
        = Raise (TransportError "Circular redirect"))
  /\ (forall target,
        location response = Some target ->
        is_relative (request_url response) target = false ->
        _get_auth_method_from_response response
        = Raise (RedirectError (url_to_str target)))
  /\ (forall redirect_url,
        _get_auth_method_from_response response = Raise (RedirectError redirect_url) ->
        exists target,
          location response = Some target
          /\ is_relative (request_url response) target = false
          /\ redirect_url = url_to_str target)
  /\ ((location response = None
       \/ exists target, location response = Some target
                         /\ url_eqb target (request_url response) = true) ->
      exists value, _get_auth_method_from_response response = Raise (TransportError value)).
Proof.
  intros Hs. unfold _get_auth_method_from_response, get_redirect_url.
  rewrite Hs. simpl.
  destruct (location response) as [target|] eqn:Hl.
  - destruct (url_eqb target (request_url response)) eqn:He; simpl.
    + repeat apply conj; try discriminate.
      * intros t Ht; inversion Ht; subst; congruence.
      * intros t Ht Hr; inversion Ht; subst.
        apply Classifier.cross_domain_differs in Hr. congruence.
      * intros _. eexists. reflexivity.
    + destruct (is_relative (request_url response) target) eqn:Hr; simpl.
      * repeat apply conj; try discriminate.
        -- intros t Ht _ _. reflexivity.
        -- intros t Ht; inversion Ht; subst; congruence.
        -- intros _. eexists. reflexivity.
      * repeat apply conj; try discriminate.
        -- intros t Ht; inversion Ht; subst; congruence.
        -- intros t Ht _. inversion Ht; subst. reflexivity.
        -- intros u Hu. inversion Hu; subst. exists target. auto.
        -- intros [H|[t [Ht H]]]; [discriminate|]. inversion Ht; subst. congruence.
  - repeat apply conj; try discriminate.
    intros _. eexists. reflexivity.
Qed.

(** A redirect to another host is surfaced, one to the same host is not. *)
Lemma redirect_classification_witness :
  _get_auth_method_from_response
    (redirect_response (MkUrl true "host1" "/EWS/Exchange.asmx")
       (Some (MkUrl true "otherhost" "/path")))
  = Raise (RedirectError "https://otherhost/path").
Proof.
  apply (proj1 (proj2 (proj2
           (redirect_classification
              (redirect_response (MkUrl true "host1" "/EWS/Exchange.asmx")
                 (Some (MkUrl true "otherhost" "/path")))
              eq_refl)))
           (MkUrl true "otherhost" "/path")); reflexivity.
Defined.

(** C3. The classifier is total, but the challenge [Basic realm], whose second
    token starts with [realm] and holds no [=], makes it leave with the
    built-in [IndexError]: an outcome that is none of the classified ones. *)
Theorem malformed_realm_is_unclassified :
  realms_well_formed (_tokenize (Py.lower "Basic realm")) = false
  /\ _get_auth_method_from_response
       (challenge_response [("WWW-Authenticate", "Basic realm")])
     = Raise (IndexError "list index out of range")
  /\ classified_outcome
       (_get_auth_method_from_response
          (challenge_response [("WWW-Authenticate", "Basic realm")]))
     = false.
Proof. repeat apply conj; vm_compute; reflexivity. Qed.

(** ** Response validation *)

Module Validation.

Lemma prefix_app (p b : string) : String.prefix p (p +:+ b) = true.
Proof.
  induction p as [|c p IH]; [destruct b; reflexivity|].
  rewrite sapp_cons. simpl. destruct (ascii_dec c c); [exact IH|congruence].
Qed.

Lemma prefix_split (p s : string) :
  String.prefix p s = true -> exists b, s = p +:+ b.
Proof.
  revert s. induction p as [|c p IH]; intros s H.
  - exists s. reflexivity.
  - destruct s as [|d s]; simpl in H; [discriminate|].
    destruct (ascii_dec c d) as [->|]; [|discriminate].
    destruct (IH s H) as [b ->]. exists b. reflexivity.
Qed.

Lemma count_from_found (sub : string) (skip : nat) (s : string) :
  (0 < Py.count_from sub skip s)%nat -> exists a b, s = a +:+ sub +:+ b.
Proof.
  revert skip. induction s as [|c s IH]; intros skip H; cbn [Py.count_from] in H; [lia|].
  destruct skip as [|k].
  - destruct (String.prefix sub (String c s)) eqn:Hp.
    + destruct (prefix_split _ _ Hp) as [b Hb]. exists EmptyString, b. exact Hb.
    + destruct (IH _ H) as (a & b & ->). exists (String c a), b. reflexivity.
  - destruct (IH _ H) as (a & b & ->). exists (String c a), b. reflexivity.
Qed.

Lemma count_finds (sub a b : string) :
  sub <> EmptyString -> (0 < Py.count (a +:+ sub +:+ b) sub)%nat.
Proof.
  intros Hsub. unfold Py.count. induction a as [|c a IH].
  - rewrite sapp_nil_l. destruct sub as [|x sub]; [congruence|].
    rewrite sapp_cons. cbn [Py.count_from].
    rewrite <- sapp_cons, prefix_app. lia.
  - rewrite sapp_cons. cbn [Py.count_from].
    destruct (String.prefix sub (String c (a +:+ sub +:+ b))); [lia|exact IH].
Qed.

Lemma lower_app (a b : string) : Py.lower (a +:+ b) = Py.lower a +:+ Py.lower b.
Proof.
  induction a as [|c a IH]; [reflexivity|].
  rewrite sapp_cons. simpl. rewrite IH. reflexivity.
Qed.

Lemma lower_split (s x y : string) :
  Py.lower s = x +:+ y -> exists a b, s = a +:+ b /\ Py.lower a = x /\ Py.lower b = y.
Proof.
  revert s. induction x as [|c x IH]; intros s H.
  - exists EmptyString, s. auto.
  - destruct s as [|d s]; [discriminate|].
    rewrite sapp_cons in H. simpl in H. injection H as Hc H.
    destruct (IH s H) as (a & b & -> & Ha & Hb).
    exists (String d a), b. simpl. rewrite Hc, Ha. auto.
Qed.

(** The helper finds the word exactly when the text contains it, letter case
    apart. *)
Lemma is_unauthorized_iff (txt : string) :
  _is_unauthorized txt = true <-> contains_ci txt "unauthorized".
Proof.
  unfold _is_unauthorized, contains_ci. split.
  - destruct (0 <? Py.count (Py.lower txt) "unauthorized")%nat eqn:H; [|discriminate].
    intros _. apply Nat.ltb_lt in H.
    destruct (count_from_found _ _ _ H) as (x & y & Hxy).
    destruct (lower_split _ _ _ Hxy) as (a & r & -> & Ha & Hr).
    destruct (lower_split _ _ _ Hr) as (m & b & -> & Hm & Hb).
    exists a, m, b. split; [reflexivity|exact Hm].
  - intros (a & m & b & -> & Hm).
    rewrite !lower_app, Hm.
    change (Py.lower "unauthorized") with "unauthorized".
    assert (H : (0 < Py.count (Py.lower a +:+ "unauthorized" +:+ Py.lower b)
                            "unauthorized")%nat)
      by (apply count_finds; discriminate).
    apply Nat.ltb_lt in H. rewrite H. reflexivity.
Qed.

End Validation.

Section ResponseValidation.

Variable is_xml : string -> bool.

(** C5. [_test_response] applies its rules in a fixed order and never reads
    the status code: a body that passes the XML test is valid, whatever words
    it holds; otherwise a body that contains [unauthorized], letter case
    apart, is unauthorized; otherwise an empty body under an NTLM strategy is
    unauthorized; otherwise the response is unrecognized and the failure
    carries the raw body.  Two responses with the same body are judged alike,
    whatever their status codes. *)
Theorem test_response_rules (auth : option AuthInstance) (response : Response) :
  (is_xml (text response) = true ->
   _test_response is_xml auth response = Return true)
  /\ (is_xml (text response) = false ->
      contains_ci (text response) "unauthorized" ->
      _test_response is_xml auth response
      = Raise (UnauthorizedError "Unauthorized (non-401)"))
  /\ (is_xml (text response) = false ->
      is_ntlm_instance auth = true ->
      text response = EmptyString ->
      _test_response is_xml auth response
      = Raise (UnauthorizedError "Unauthorized (NTLM, empty response)"))
  /\ (is_xml (text response) = false ->
      ~ contains_ci (text response) "unauthorized" ->
      is_ntlm_instance auth = false \/ text response <> EmptyString ->
      _test_response is_xml auth response
      = Raise (TransportError
                 ("Unknown response from Exchange:" +:+ Py.chr Py.newline
                  +:+ Py.chr Py.newline +:+ text response)))
  /\ (forall response' : Response,
        text response' = text response ->
        _test_response is_xml auth response' = _test_response is_xml auth response).
Proof.
  unfold _test_response. repeat apply conj.
  - intros ->. reflexivity.
  - intros -> H. apply Validation.is_unauthorized_iff in H. rewrite H. reflexivity.
  - intros -> -> ->. reflexivity.
  - intros -> Hn Hc.
    destruct (_is_unauthorized (text response)) eqn:Hu.
    { exfalso. apply Hn, Validation.is_unauthorized_iff, Hu. }
    destruct Hc as [->|Hc]; [reflexivity|].
    apply truthy_true in Hc. rewrite Hc, andb_false_r. reflexivity.
  - intros response' ->. reflexivity.
Qed.

End ResponseValidation.

(** An empty body with status 200 under NTLM is unauthorized. *)
Lemma test_response_rules_witness :
  _test_response (fun _ => false) (Some (MkAuth HttpNtlmAuth "user" "secret"))
    {| status_code := 200; reason := "OK"; headers := []; text := EmptyString;
       request_url := MkUrl true "host1" "/EWS/Exchange.asmx"; location := None |}
  = Raise (UnauthorizedError "Unauthorized (NTLM, empty response)").
Proof.
  apply (proj1 (proj2 (proj2 (test_response_rules (fun _ => false) _ _))));
    reflexivity.
Defined.

(** ** Signing strategies *)

Lemma AUTH_TYPE_MAP_lookup (auth_type : string) :
  AUTH_TYPE_MAP !! auth_type
  = if decide (NTLM = auth_type) then Some (Some HttpNtlmAuth)
    else if decide (BASIC = auth_type) then Some (Some HTTPBasicAuth)
    else if decide (DIGEST = auth_type) then Some (Some HTTPDigestAuth)
    else if decide (NOAUTH = auth_type) then Some None
    else None.
Proof.
  unfold AUTH_TYPE_MAP. rewrite !lookup_insert, lookup_empty. reflexivity.
Qed.

(** C8. [get_auth_instance] maps the no-authentication type to [None] and a
    type outside the table to a [ValueError]; for NTLM with credentials of the
    email kind it puts a backslash before the username; for NTLM with other
    credentials, for basic and for digest it passes username and password on
    unchanged. *)
Theorem get_auth_instance_spec :
  (forall credentials, get_auth_instance credentials NOAUTH = Return None)
  /\ (forall credentials auth_type,
        auth_type ∉ [NTLM; BASIC; DIGEST; NOAUTH] ->
        get_auth_instance credentials auth_type
        = Raise (ValueError
                   ("Authentication type '" +:+ auth_type +:+ "' not supported")))
  /\ (forall c, type c = EMAIL c ->
        get_auth_instance (Some c) NTLM
        = Return (Some {| auth_model := HttpNtlmAuth;
                          auth_username := Py.chr Py.backslash +:+ username c;
                          auth_password := password c |}))
  /\ (forall c, type c <> EMAIL c ->
        get_auth_instance (Some c) NTLM
        = Return (Some {| auth_model := HttpNtlmAuth;
                          auth_username := username c;
                          auth_password := password c |}))
  /\ (forall c,
        get_auth_instance (Some c) BASIC
        = Return (Some {| auth_model := HTTPBasicAuth;
                          auth_username := username c;
                          auth_password := password c |}))
  /\ (forall c,
        get_auth_instance (Some c) DIGEST
        = Return (Some {| auth_model := HTTPDigestAuth;
                          auth_username := username c;
                          auth_password := password c |})).
Proof.
  repeat apply conj.
  - intros credentials. unfold get_auth_instance. rewrite AUTH_TYPE_MAP_lookup.
    reflexivity.
  - intros credentials auth_type Hn. unfold get_auth_instance.
    rewrite AUTH_TYPE_MAP_lookup.
    repeat (case_decide; [exfalso; apply Hn; subst auth_type; set_solver|]).
    reflexivity.
  - intros c Hc. unfold get_auth_instance. rewrite AUTH_TYPE_MAP_lookup. simpl.
    rewrite Hc, String.eqb_refl. reflexivity.
  - intros c Hc. unfold get_auth_instance. rewrite AUTH_TYPE_MAP_lookup. simpl.
    apply String.eqb_neq in Hc. rewrite Hc. reflexivity.
  - intros c. unfold get_auth_instance. rewrite AUTH_TYPE_MAP_lookup. reflexivity.
  - intros c. unfold get_auth_instance. rewrite AUTH_TYPE_MAP_lookup. reflexivity.
Qed.

(** The unknown type has no signing strategy; an email identity gets the
    separator under NTLM. *)
Lemma get_auth_instance_spec_witness :
  get_auth_instance None UNKNOWN
  = Raise (ValueError ("Authentication type '" +:+ UNKNOWN +:+ "' not supported"))
  /\ get_auth_instance (Some (MkCredentials "jane@example.com" "secret" "email" "email")) NTLM
     = Return (Some {| auth_model := HttpNtlmAuth;
                       auth_username := Py.chr Py.backslash +:+ "jane@example.com";
                       auth_password := "secret" |}).
Proof.
  split.
  - apply (proj1 (proj2 get_auth_instance_spec)).
    unfold UNKNOWN, NTLM, BASIC, DIGEST, NOAUTH.
    rewrite !not_elem_of_cons. repeat split; try discriminate. apply not_elem_of_nil.
  - apply (proj1 (proj2 (proj2 get_auth_instance_spec))
             (MkCredentials "jane@example.com" "secret" "email" "email")).
    reflexivity.
Defined.

(** C10. For the no-authentication type [get_auth_instance] returns [None]
    without a read of the credentials: the call succeeds on absent
    credentials, and for every type other than NTLM, basic and digest the
    outcome is the same whatever the credentials are.  The three remaining
    branches do read them: on absent credentials they fail at the first read,
    that of the username. *)
Theorem noauth_never_reads_credentials :
  get_auth_instance None NOAUTH = Return None
  /\ (forall (credentials credentials' : option Credentials) (auth_type : string),
        auth_type ∉ [NTLM; BASIC; DIGEST] ->
        get_auth_instance credentials auth_type = get_auth_instance credentials' auth_type)
  /\ (forall auth_type : string,
        auth_type ∈ [NTLM; BASIC; DIGEST] ->
        get_auth_instance None auth_type
        = Raise (AttributeError "'NoneType' object has no attribute 'username'")).
Proof.
  repeat apply conj.
  - unfold get_auth_instance. rewrite AUTH_TYPE_MAP_lookup. reflexivity.
  - intros credentials credentials' auth_type Hn. unfold get_auth_instance.
    rewrite AUTH_TYPE_MAP_lookup.
    repeat (case_decide; [exfalso; apply Hn; subst auth_type; set_solver|]).
    case_decide; reflexivity.
  - intros auth_type Hin. unfold get_auth_instance. rewrite AUTH_TYPE_MAP_lookup.
    rewrite !elem_of_cons in Hin.
    destruct Hin as [->|[->|[->|Hin]]]; [reflexivity..|].
    apply elem_of_nil in Hin. contradiction.
Qed.

(** Absent credentials are fine without authentication and are missed under
    basic authentication. *)
Lemma noauth_never_reads_credentials_witness :
  get_auth_instance None BASIC
  = Raise (AttributeError "'NoneType' object has no attribute 'username'").
Proof.
  apply (proj2 (proj2 noauth_never_reads_credentials)).
  unfold BASIC, NTLM. apply list_elem_of_further, list_elem_of_here.
Defined.

(** ** The envelope *)

Section Envelope.

Context {Bytes : Type}.
Variable xml_to_str : Element -> string -> bool -> Bytes.
Variable parse : Bytes -> option Element.

(** The serializer is inverted by the parser. *)
Hypothesis parse_xml_to_str :
  forall (e : Element) (encoding : string), parse (xml_to_str e encoding true) = Some e.

(** C9. Whatever the payload, the version and the context, the serialized
    envelope parses back to an envelope element with the three namespace
    bindings and exactly two children, a header and a body.  The header holds
    the version element first, then the impersonation block exactly when an
    impersonation identity is set, then the timezone-context block exactly
    when a timezone identifier is set, and nothing else; the body holds the
    payload, unchanged, as its only child. *)
Theorem wrap_structure (content : Element) (version : string)
  (account : option Account) (ewstimezone : option EWSTimeZone) (encoding : string) :
  exists header body : Element,
    parse (wrap xml_to_str content version account ewstimezone encoding)
    = Some (Elem "s:Envelope" [("xmlns:s", SOAPNS); ("xmlns:t", TNS); ("xmlns:m", MNS)]
              None [header; body])
    /\ tag_of header = "s:Header"
    /\ children_of header
       = version_element version
         :: option_list (impersonation_block <$> impersonation_identity account)
         ++ option_list (timezone_block <$> timezone_id ewstimezone)
    /\ children_of header !! 0%nat = Some (version_element version)
    /\ length (filter (fun e => tag_of e = "t:RequestServerVersion") (children_of header))
       = 1%nat
    /\ length (filter (fun e => tag_of e = "t:ExchangeImpersonation") (children_of header))
       = (if impersonation_identity account is Some _ then 1 else 0)%nat
    /\ length (filter (fun e => tag_of e = "t:TimeZoneContext") (children_of header))
       = (if timezone_id ewstimezone is Some _ then 1 else 0)%nat
    /\ tag_of body = "s:Body"
    /\ children_of body = [content].
Proof.
  unfold wrap. rewrite parse_xml_to_str.
  unfold envelope_of, impersonation_identity, timezone_id.
  destruct account as [a|]; [destruct (String.eqb (access_type a) IMPERSONATION)|];
    destruct ewstimezone as [tz|]; simpl;
    eexists; eexists; (split; [reflexivity|]); simpl;
    repeat apply conj; reflexivity.
Qed.

End Envelope.

(** An impersonating account and no timezone: the header holds the version
    element and the impersonation block, in that order. *)
Lemma wrap_structure_witness :
  exists header body : Element,
    Some (wrap (fun e _ _ => e) (Elem "m:ResolveNames" [] None []) "Exchange2010"
            (Some (MkAccount IMPERSONATION "jane@example.com")) None "utf-8")
    = Some (Elem "s:Envelope" [("xmlns:s", SOAPNS); ("xmlns:t", TNS); ("xmlns:m", MNS)]
              None [header; body])
    /\ children_of header
       = [version_element "Exchange2010"; impersonation_block "jane@example.com"]
    /\ children_of body = [Elem "m:ResolveNames" [] None []].
Proof.
  destruct (wrap_structure (fun e _ _ => e) Some (fun _ _ => eq_refl)
              (Elem "m:ResolveNames" [] None []) "Exchange2010"
              (Some (MkAccount IMPERSONATION "jane@example.com")) None "utf-8")
    as (header & body & H1 & _ & H3 & _ & _ & _ & _ & _ & H9).
  exists header, body. repeat apply conj; assumption.
Defined.

(** ** The probes *)

Section ProbeProperties.

Context {Server : Type}.
Variable exchange : Request -> Server -> Response * Server.
Variable dummy_xml : string -> string -> string.
Variable isinstance_TransportError : exn -> bool.

Variables (endpoint : string) (tls : bool) (who : string).

Local Abbreviation request_for := (service_request dummy_xml endpoint tls who).
Local Abbreviation loop :=
  (service_loop exchange dummy_xml isinstance_TransportError endpoint tls who).
Local Abbreviation posts := (post_all exchange dummy_xml endpoint tls who).
Local Abbreviation is_folded := (folded isinstance_TransportError).

(** Every exchange is logged, in order. *)
Lemma send_sent (req : Request) (s : Session Server) :
  sent (send exchange req s).2 = sent s ++ [req].
Proof. unfold send. destruct (exchange req (remote s)). reflexivity. Qed.

Lemma post_all_sent (versions : list string) (s : Session Server) :
  sent (posts versions s).2 = sent s ++ map request_for versions.
Proof.
  revert s. induction versions as [|version versions IH]; intros s; simpl.
  - rewrite app_nil_r. reflexivity.
  - destruct (send exchange (request_for version) s) as [r s1] eqn:E1.
    destruct (posts versions s1) as [rs s2] eqn:E2. simpl.
    change s2 with (rs, s2).2. rewrite <- E2, IH.
    change s1 with (r, s1).2. rewrite <- E1, send_sent, <- app_assoc. reflexivity.
Qed.

(** Versions whose responses are folded are passed over. *)
Lemma service_loop_folded (tried rest : list string) (s : Session Server) :
  forallb is_folded (posts tried s).1 = true ->
  loop (tried ++ rest) s = loop rest (posts tried s).2.
Proof.
  revert s. induction tried as [|version tried IH]; intros s; simpl; [reflexivity|].
  destruct (send exchange (request_for version) s) as [r s1].
  destruct (posts tried s1) as [rs s2] eqn:E. simpl. intros H.
  apply andb_true_iff in H as [Hr Hrs]. unfold folded in Hr.
  destruct (_get_auth_method_from_response r) as [a|e]; [discriminate|].
  rewrite Hr, IH; rewrite E; [reflexivity|exact Hrs].
Qed.

Lemma service_loop_stops (version : string) (rest : list string) (s : Session Server) :
  is_folded (send exchange (request_for version) s).1 = false ->
  loop (version :: rest) s
  = (_get_auth_method_from_response (send exchange (request_for version) s).1,
     (send exchange (request_for version) s).2).
Proof.
  simpl. destruct (send exchange (request_for version) s) as [r s1]. simpl.
  unfold folded. destruct (_get_auth_method_from_response r) as [a|e]; [reflexivity|].
  intros ->. reflexivity.
Qed.

(** The document probe sends one GET that follows redirects and classifies
    the answer. *)
Lemma docs_probe_spec (docs_url : string) (remote0 : Server) :
  let get_request :=
    {| method := GET; url := docs_url; req_headers := content_type; data := None;
       timeout := None; allow_redirects := true; verify := tls |} in
  get_docs_authtype exchange docs_url tls remote0
  = (_get_auth_method_from_response
       (send exchange get_request {| remote := remote0; sent := [] |}).1,
     (send exchange get_request {| remote := remote0; sent := [] |}).2)
  /\ sent (get_docs_authtype exchange docs_url tls remote0).2 = [get_request].
Proof.
  intros get_request. unfold get_docs_authtype. fold get_request.
  pose proof (send_sent get_request {| remote := remote0; sent := [] |}) as Hs.
  destruct (send exchange get_request {| remote := remote0; sent := [] |}); simpl in *.
  split; [reflexivity|exact Hs].
Qed.

(** The clause [except TransportError] catches a [TransportError]. *)
Hypothesis TransportError_caught :
  forall value : string, isinstance_TransportError (TransportError value) = true.

(** On a client that always gets an answer, the service probe posts the dummy
    request of each version in the
    given order, one request per version.  A response whose classification is
    a failure caught as [TransportError], such as an unexpected status, is
    folded into the next version.  The first version whose response is not
    folded decides: its classification is the outcome of the probe, and the
    requests sent are those of the versions up to it and no other.  When the
    responses of all versions are folded, the probe fails with the
    [TransportError] that tells that no auth type was found, after one request
    per version. *)
Theorem service_probe_spec (remote0 : Server) :
  (forall r : Response,
     status_code r <> 200 -> status_code r <> 302 -> status_code r <> 401 ->
     is_folded r = true)
  /\ (forall (tried : list string) (version : string) (rest : list string),
        let s := (posts tried {| remote := remote0; sent := [] |}).2 in
        forallb is_folded (posts tried {| remote := remote0; sent := [] |}).1 = true ->
        is_folded (send exchange (request_for version) s).1 = false ->
        get_service_authtype exchange dummy_xml isinstance_TransportError
          endpoint (tried ++ version :: rest) tls who remote0
        = (_get_auth_method_from_response (send exchange (request_for version) s).1,
           (send exchange (request_for version) s).2)
        /\ sent (send exchange (request_for version) s).2
           = map request_for (tried ++ [version]))
  /\ (forall versions : list string,
        forallb is_folded (posts versions {| remote := remote0; sent := [] |}).1 = true ->
        get_service_authtype exchange dummy_xml isinstance_TransportError
          endpoint versions tls who remote0
        = (Raise (TransportError "Failed to get auth type from service"),
           (posts versions {| remote := remote0; sent := [] |}).2)
        /\ sent (posts versions {| remote := remote0; sent := [] |}).2
           = map request_for versions).
Proof.
  repeat apply conj.
  - intros r H200 H302 H401. unfold folded, _get_auth_method_from_response.
    apply Z.eqb_neq in H200, H302, H401. rewrite H200, H302, H401. simpl.
    apply TransportError_caught.
  - intros tried version rest s Hf Hv. split.
    + unfold get_service_authtype. rewrite (service_loop_folded _ _ _ Hf).
      apply service_loop_stops. exact Hv.
    + rewrite send_sent. unfold s. rewrite post_all_sent, map_app. reflexivity.
  - intros versions Hf. split.
    + unfold get_service_authtype.
      rewrite <- (app_nil_r versions) at 1.
      rewrite (service_loop_folded _ _ _ Hf). reflexivity.
    + rewrite post_all_sent. reflexivity.
Qed.

Variables (payload : string) (time_limit : Z).

Local Abbreviation head_request :=
  {| method := HEAD; url := endpoint; req_headers := content_type;
     data := None; timeout := Some time_limit; allow_redirects := false;
     verify := tls |}.
Local Abbreviation post_request :=
  {| method := POST; url := endpoint; req_headers := content_type;
     data := Some payload; timeout := Some time_limit; allow_redirects := false;
     verify := tls |}.
Local Abbreviation probe :=
  (get_autodiscover_authtype exchange endpoint payload time_limit tls).

(** C7. The autodiscover probe first sends a HEAD request that does not follow
    redirects.  When the answer is a 302 whose target differs from the request
    in scheme or host, the probe stops there, with that one request sent, and
    raises [RedirectError] with the target.  When the answer is no 302, or a
    302 whose target is relative, the probe goes on to one POST request with
    the payload of the caller, and its outcome is the classification of the
    answer to that POST. *)
Theorem autodiscover_probe_spec (remote0 : Server) :
  let s0 := {| remote := remote0; sent := [] |} in
  let r := (send exchange head_request s0).1 in
  let s1 := (send exchange head_request s0).2 in
  (exists later, sent (probe remote0).2 = head_request :: later)
  /\ (forall target : Url,
        status_code r = 302 ->
        location r = Some target ->
        is_relative (request_url r) target = false ->
        probe remote0 = (Raise (RedirectError (url_to_str target)), s1)
        /\ sent s1 = [head_request])
  /\ ((status_code r <> 302
       \/ exists target : Url,
            location r = Some target
            /\ url_eqb target (request_url r) = false
            /\ is_relative (request_url r) target = true) ->
      probe remote0
      = (_get_auth_method_from_response (send exchange post_request s1).1,
         (send exchange post_request s1).2)
      /\ sent (send exchange post_request s1).2 = [head_request; post_request]).
Proof.
  intros s0 r s1.
  assert (Hs1 : sent s1 = [head_request]) by (unfold s1; rewrite send_sent; reflexivity).
  assert (Hs2 : sent (send exchange post_request s1).2 = [head_request; post_request])
    by (rewrite send_sent, Hs1; reflexivity).
  unfold get_autodiscover_authtype. fold s0.
  destruct (send exchange head_request s0) as [r' s1'] eqn:E.
  simpl in r, s1. subst r s1.
  repeat apply conj.
  - destruct (status_code r' =? 302).
    + destruct (get_redirect_url r' true true) as [x|e].
      * destruct (send exchange post_request s1'); simpl in *.
        rewrite Hs2. eexists. reflexivity.
      * destruct e; simpl; rewrite Hs1; eexists; reflexivity.
    + destruct (send exchange post_request s1'); simpl in *.
      rewrite Hs2. eexists. reflexivity.
  - intros target H302 Hl Hr. split; [|exact Hs1].
    rewrite H302. simpl. unfold get_redirect_url.
    rewrite Hl, (Classifier.cross_domain_differs _ _ Hr), Hr. reflexivity.
  - intros H. split; [|exact Hs2]. destruct H as [H|(target & Hl & He & Hr)].
    + apply Z.eqb_neq in H. rewrite H.
      destruct (send exchange post_request s1'); reflexivity.
    + unfold get_redirect_url. rewrite Hl, He, Hr. simpl.
      destruct (status_code r' =? 302);
        destruct (send exchange post_request s1'); reflexivity.
Qed.

End ProbeProperties.

(** The first version is answered with status 500 and folded; the second is
    answered with an NTLM challenge and decides; the third is never sent. *)
Lemma service_probe_spec_witness :
  get_service_authtype scripted example_dummy_xml derives_from_TransportError
    "https://host1/EWS/Exchange.asmx"
    ["Exchange2007"; "Exchange2010"; "Exchange2013"] true "jane"
    [server_error; challenge_response [("WWW-Authenticate", "Negotiate, NTLM")]]
  = (Return NTLM,
     {| remote := [];
        sent := map (service_request example_dummy_xml
                       "https://host1/EWS/Exchange.asmx" true "jane")
                  ["Exchange2007"; "Exchange2010"] |}).
Proof.
  exact (proj1 (proj1 (proj2 (service_probe_spec scripted example_dummy_xml
                                derives_from_TransportError
                                "https://host1/EWS/Exchange.asmx" true "jane"
                                (fun _ => eq_refl)
                                [server_error;
                                 challenge_response
                                   [("WWW-Authenticate", "Negotiate, NTLM")]]))
                 ["Exchange2007"] "Exchange2010" ["Exchange2013"] eq_refl eq_refl)).
Defined.

(** A HEAD answered with a redirect to another host ends the probe. *)
Lemma autodiscover_probe_spec_witness :
  get_autodiscover_authtype scripted "https://host1/autodiscover/autodiscover.xml"
    "<Autodiscover/>" 10 true
    [redirect_response (MkUrl true "host1" "/autodiscover/autodiscover.xml")
       (Some (MkUrl true "otherhost" "/autodiscover/autodiscover.xml"))]
  = (Raise (RedirectError "https://otherhost/autodiscover/autodiscover.xml"),
     {| remote := [];
        sent := [{| method := HEAD;
                    url := "https://host1/autodiscover/autodiscover.xml";
                    req_headers := content_type; data := None;
                    timeout := Some 10; allow_redirects := false;
                    verify := true |}] |}).
Proof.
  exact (proj1 (proj1 (proj2 (autodiscover_probe_spec scripted
                                "https://host1/autodiscover/autodiscover.xml" true
                                "<Autodiscover/>" 10
                                [redirect_response
                                   (MkUrl true "host1" "/autodiscover/autodiscover.xml")
                                   (Some (MkUrl true "otherhost"
                                            "/autodiscover/autodiscover.xml"))]))
                 (MkUrl true "otherhost" "/autodiscover/autodiscover.xml")
                 eq_refl eq_refl eq_refl)).
Defined.

(** * Further properties *)

(** ** The tokenizer and letter case *)

Module TokenizerCase.
Import Tokenizer.

Lemma lower_char_separator (c : ascii) :
  is_separator (Py.lower_char c) = is_separator c.
Proof. destruct c as [[] [] [] [] [] [] [] []]; reflexivity. Qed.

Lemma lower_char_dquote (c : ascii) :
  Ascii.eqb (Py.lower_char c) Py.dquote = Ascii.eqb c Py.dquote.
Proof. destruct c as [[] [] [] [] [] [] [] []]; reflexivity. Qed.

Lemma lower_char_idem (c : ascii) :
  Py.lower_char (Py.lower_char c) = Py.lower_char c.
Proof. destruct c as [[] [] [] [] [] [] [] []]; reflexivity. Qed.

Lemma lower_idem (s : string) : Py.lower (Py.lower s) = Py.lower s.
Proof.
  induction s as [|c s IH]; [reflexivity|].
  simpl. rewrite lower_char_idem, IH. reflexivity.
Qed.

Lemma lower_snoc (t : string) (c : ascii) :
  Py.lower (t +:+ Py.chr c) = Py.lower t +:+ Py.chr (Py.lower_char c).
Proof.
  induction t as [|a t IH]; [reflexivity|].
  rewrite sapp_cons. simpl. rewrite IH. reflexivity.
Qed.

Lemma lower_truthy (t : string) : Py.truthy (Py.lower t) = Py.truthy t.
Proof. destruct t; reflexivity. Qed.

Lemma lower_keeps (t : string) : keeps_token (Py.lower t) = keeps_token t.
Proof.
  destruct t as [|c t]; [reflexivity|].
  unfold keeps_token. simpl.
  assert (Hc : Ascii.eqb (Py.lower_char c) "," = Ascii.eqb c ",")
    by (destruct c as [[] [] [] [] [] [] [] []]; reflexivity).
  rewrite Hc. destruct t; reflexivity.
Qed.

Lemma tok_step_lower (st : tok_state) (c : ascii) :
  tok_step (lower_state st) (Py.lower_char c) = lower_state (tok_step st c).
Proof.
  unfold tok_step, lower_state. destruct st as [ts t qu]; simpl.
  rewrite lower_char_separator, lower_char_dquote, lower_keeps.
  destruct (is_separator c && negb qu).
  - destruct (keeps_token t); simpl; rewrite ?map_app; reflexivity.
  - destruct (Ascii.eqb c Py.dquote).
    + destruct qu; cbn [tokens token quote]; rewrite ?map_app; cbn [map];
        rewrite lower_snoc; reflexivity.
    + cbn [tokens token quote]. rewrite lower_snoc. reflexivity.
Qed.

Lemma tok_loop_lower (val : string) (st : tok_state) :
  tok_loop (Py.lower val) (lower_state st) = lower_state (tok_loop val st).
Proof.
  revert st. induction val as [|c val IH]; intros st; simpl; [reflexivity|].
  rewrite tok_step_lower. apply IH.
Qed.

End TokenizerCase.

(** The fold of the letters A-Z commutes with tokenizing. *)
Lemma tokenize_lower (val : string) :
  _tokenize (Py.lower val) = map Py.lower (_tokenize val).
Proof.
  unfold _tokenize.
  change {| tokens := []; token := EmptyString; quote := false |}
    with (lower_state tok_init) at 1.
  rewrite TokenizerCase.tok_loop_lower. fold tok_init.
  unfold tok_finish, lower_state; simpl.
  rewrite TokenizerCase.lower_truthy.
  destruct (Py.truthy (token (tok_loop val tok_init))); [|reflexivity].
  rewrite map_app. reflexivity.
Qed.

(** X1. On ASCII text, where [lower] is Python's [str.lower], lower-casing
    commutes with tokenizing: the tokens of the lower-cased value are the
    lower-cased tokens of the value, so the classifier may fold the case of
    an ASCII challenge before or after it splits it. *)
Theorem tokenize_lower_ascii (val : string) :
  is_ascii val = true ->
  is_ascii (Py.lower val) = true
  /\ Forall (fun t => is_ascii t = true) (_tokenize val)
  /\ _tokenize (Py.lower val) = map Py.lower (_tokenize val).
Proof.
  intros Hval. split; [|split].
  - induction val as [|c val IH]; [reflexivity|].
    unfold is_ascii in *. simpl in *.
    apply andb_true_iff in Hval as [Hc Hval]. rewrite (IH Hval), andb_true_r.
    revert Hc. destruct c as [[] [] [] [] [] [] [] []]; vm_compute; congruence.
  - assert (Hglue : is_ascii (glue (_tokenize val)) = true).
    { unfold _tokenize. fold tok_init.
      rewrite Tokenizer.tok_finish_glue, (Tokenizer.tok_loop_seen val tok_init eq_refl).
      unfold seen, tok_init; simpl. clear -Hval.
      generalize false. induction val as [|c val IH]; intros b; [reflexivity|].
      unfold is_ascii in *. simpl in *.
      apply andb_true_iff in Hval as [Hc Hval].
      destruct (is_separator c && negb b); [apply IH, Hval|].
      simpl. rewrite Hc. apply IH, Hval. }
    revert Hglue. generalize (_tokenize val). intros ts.
    induction ts as [|t ts IH]; intros H; [constructor|].
    unfold glue in H. simpl in H. unfold is_ascii in H.
    rewrite string_forall_app in H. apply andb_true_iff in H as [Ht Hts].
    constructor; [exact Ht|apply IH, Hts].
  - apply tokenize_lower.
Qed.

(** An ASCII challenge in mixed case. *)
Lemma tokenize_lower_ascii_witness :
  _tokenize (Py.lower "NTLM, Basic Realm=X") = map Py.lower (_tokenize "NTLM, Basic Realm=X").
Proof.
  apply (tokenize_lower_ascii "NTLM, Basic Realm=X"). reflexivity.
Defined.

(** ** The shape of tokens *)

Module TokenShape.
Import Tokenizer.

Lemma scan_plain (w : string) :
  plain w = true ->
  tok_loop w tok_init = {| tokens := []; token := w; quote := false |}.
Proof.
  intros Hw. unfold tok_init. rewrite (tok_loop_plain w [] EmptyString Hw).
  rewrite sapp_nil_l. reflexivity.
Qed.

Lemma scan_open (w s : string) :
  plain w = true -> unquoted s = true ->
  tok_loop (w +:+ dq +:+ s) tok_init
  = {| tokens := []; token := w +:+ dq +:+ s; quote := true |}.
Proof.
  intros Hw Hs. rewrite tok_loop_app, (scan_plain w Hw), tok_loop_app.
  change (tok_loop dq {| tokens := []; token := w; quote := false |})
    with {| tokens := []; token := w +:+ dq; quote := true |}.
  rewrite (tok_loop_unquoted s [] _ Hs), sapp_assoc. reflexivity.
Qed.

Lemma tokenize_plain (w : string) :
  plain w = true -> w <> EmptyString -> _tokenize w = [w].
Proof.
  intros Hw Hne. unfold _tokenize. fold tok_init. rewrite (scan_plain w Hw).
  unfold tok_finish; cbn [tokens token].
  apply truthy_true in Hne. rewrite Hne. reflexivity.
Qed.

Lemma tokenize_open (w s : string) :
  plain w = true -> unquoted s = true -> _tokenize (w +:+ dq +:+ s) = [w +:+ dq +:+ s].
Proof.
  intros Hw Hs. unfold _tokenize. fold tok_init. rewrite (scan_open w s Hw Hs).
  unfold tok_finish; cbn [tokens token].
  destruct (w +:+ dq +:+ s) eqn:E; [|reflexivity].
  apply sapp_eq_nil in E as [_ E]. apply sapp_eq_nil in E as [E _]. discriminate E.
Qed.

Lemma tokenize_closed (w s : string) :
  plain w = true -> unquoted s = true ->
  _tokenize (w +:+ dq +:+ s +:+ dq) = [w +:+ dq +:+ s +:+ dq].
Proof.
  intros Hw Hs. unfold _tokenize. fold tok_init.
  replace (w +:+ dq +:+ s +:+ dq) with ((w +:+ dq +:+ s) +:+ dq)
    by (rewrite !sapp_assoc; reflexivity).
  rewrite tok_loop_app, (scan_open w s Hw Hs). reflexivity.
Qed.

(** A token of one of the three shapes, when not empty, is a token of
    itself. *)
Lemma shape_atomic (t : string) :
  token_shape t -> t <> EmptyString -> _tokenize t = [t].
Proof.
  intros [Hp|(w & s & Hw & Hs & [->| ->])] Hne.
  - apply tokenize_plain; assumption.
  - apply tokenize_closed; assumption.
  - apply tokenize_open; assumption.
Qed.

Lemma unquoted_snoc (s : string) (c : ascii) :
  unquoted s = true -> Ascii.eqb c Py.dquote = false ->
  unquoted (s +:+ Py.chr c) = true.
Proof.
  intros Hs Hc. unfold unquoted, Py.chr in *.
  rewrite string_forall_app, Hs. simpl. rewrite Hc. reflexivity.
Qed.

Lemma tok_step_shaped (st : tok_state) (c : ascii) :
  shaped st -> shaped (tok_step st c).
Proof.
  unfold shaped, tok_step. destruct st as [ts t qu]; simpl. intros [Hts Ht].
  destruct qu; simpl.
  - rewrite andb_false_r. destruct Ht as (w & s & Hw & Hs & ->).
    destruct (Ascii.eqb c Py.dquote) eqn:Hq; simpl.
    + split; [|reflexivity]. apply Forall_app; split; [exact Hts|].
      constructor; [|constructor]. right. exists w, s.
      apply Ascii.eqb_eq in Hq. subst c.
      split; [exact Hw|]. split; [exact Hs|]. left. rewrite !sapp_assoc. reflexivity.
    + split; [exact Hts|]. exists w, (s +:+ Py.chr c).
      split; [exact Hw|]. split; [apply unquoted_snoc; assumption|].
      rewrite !sapp_assoc. reflexivity.
  - rewrite andb_true_r. destruct (is_separator c) eqn:Hs; simpl.
    + split; [|reflexivity]. destruct (keeps_token t); [|exact Hts].
      apply Forall_app; split; [exact Hts|]. constructor; [|constructor].
      left. exact Ht.
    + destruct (Ascii.eqb c Py.dquote) eqn:Hq; simpl.
      * split; [exact Hts|]. exists t, EmptyString.
        apply Ascii.eqb_eq in Hq. subst c.
        split; [exact Ht|]. split; [reflexivity|]. rewrite sapp_nil_r. reflexivity.
      * split; [exact Hts|]. unfold plain, Py.chr in *.
        rewrite string_forall_app, Ht. simpl. unfold plain_char.
        rewrite Hs, Hq. reflexivity.
Qed.

Lemma tok_loop_shaped (val : string) (st : tok_state) :
  shaped st -> shaped (tok_loop val st).
Proof.
  revert st. induction val as [|c val IH]; intros st H; simpl; [exact H|].
  apply IH, tok_step_shaped, H.
Qed.

Lemma tokenize_shaped (val : string) : Forall token_shape (_tokenize val).
Proof.
  unfold _tokenize.
  assert (H : shaped (tok_loop val {| tokens := []; token := EmptyString; quote := false |})).
  { apply tok_loop_shaped. split; [constructor|reflexivity]. }
  destruct H as [Hts Ht]. unfold tok_finish.
  destruct (Py.truthy (token _)); [|exact Hts].
  apply Forall_app; split; [exact Hts|]. constructor; [|constructor].
  destruct (quote _).
  - destruct Ht as (w & s & Hw & Hs & ->). right. exists w, s. auto.
  - left. exact Ht.
Qed.

End TokenShape.

(** X2. Tokens are atomic.  Every token that [_tokenize] emits is a plain run
    of characters, optionally followed by one quoted span that ends the token
    or is left open by the end of the input; and tokenizing such a token again
    gives back that one token. *)
Theorem tokens_atomic (val t : string) :
  t ∈ _tokenize val -> token_shape t /\ _tokenize t = [t].
Proof.
  intros Hin.
  pose proof (TokenShape.tokenize_shaped val) as Hs.
  pose proof (Tokenizer.tokenize_kept val) as Hk.
  rewrite Forall_forall in Hs, Hk.
  split; [apply Hs, Hin|].
  apply TokenShape.shape_atomic; [apply Hs, Hin|].
  intros ->. specialize (Hk _ Hin). discriminate Hk.
Qed.

(** The realm token of a basic challenge is a token of its own. *)
Lemma tokens_atomic_witness :
  token_shape ("realm=" +:+ dq +:+ "a, b" +:+ dq)
  /\ _tokenize ("realm=" +:+ dq +:+ "a, b" +:+ dq) = ["realm=" +:+ dq +:+ "a, b" +:+ dq].
Proof.
  apply (tokens_atomic ("basic realm=" +:+ dq +:+ "a, b" +:+ dq)).
  vm_compute. apply list_elem_of_further, list_elem_of_here.
Defined.

(** ** The classifier and the signing table *)

Module ClassifierRange.

Lemma auth_from_headers_range (items : list (string * string)) (auth_type : string) :
  auth_from_headers items = Return auth_type -> auth_type ∈ [DIGEST; NTLM; BASIC].
Proof.
  induction items as [|[key val] items IH]; simpl; [discriminate|].
  destruct (String.eqb (Py.lower key) "www-authenticate"); [|exact IH].
  destruct (log_realms (_tokenize (Py.lower val))); simpl; [|discriminate].
  repeat (match goal with |- context [bool_decide ?P] => destruct (bool_decide P) end;
          [intros [= Heq]; subst auth_type; rewrite !elem_of_cons; tauto|]).
  exact IH.
Qed.

Lemma classifier_range (response : Response) (auth_type : string) :
  _get_auth_method_from_response response = Return auth_type -> auth_type ∈ negotiable.
Proof.
  unfold _get_auth_method_from_response, negotiable.
  destruct (status_code response =? 200);
    [intros [= Heq]; subst auth_type; rewrite !elem_of_cons; tauto|].
  destruct (status_code response =? 302).
  { destruct (get_redirect_url response false false) as [[[u sv] ssl]|e];
      [discriminate|destruct e; discriminate]. }
  destruct (negb (status_code response =? 401)); [discriminate|].
  intros H. apply auth_from_headers_range in H.
  rewrite !elem_of_cons, elem_of_nil in *. tauto.
Qed.

Lemma negotiable_lookup (auth_type : string) :
  auth_type ∈ negotiable -> is_Some (AUTH_TYPE_MAP !! auth_type).
Proof.
  unfold negotiable. rewrite !elem_of_cons, elem_of_nil.
  intros [->|[->|[->|[->|[]]]]]; rewrite AUTH_TYPE_MAP_lookup; eexists; reflexivity.
Qed.

Lemma supported_no_ValueError (credentials : option Credentials) (auth_type value : string) :
  is_Some (AUTH_TYPE_MAP !! auth_type) ->
  get_auth_instance credentials auth_type <> Raise (ValueError value).
Proof.
  intros [model Hm]. unfold get_auth_instance. rewrite Hm.
  destruct model as [model|]; [|discriminate].
  destruct credentials as [c|]; simpl; [|discriminate].
  destruct (String.eqb auth_type NTLM); simpl; [|discriminate].
  destruct (String.eqb (type c) (EMAIL c)); discriminate.
Qed.

(** The header loop reads names and values through [lower] only. *)
Lemma auth_from_headers_lower (items : list (string * string)) :
  auth_from_headers (map lower_header items) = auth_from_headers items.
Proof.
  induction items as [|[key val] items IH]; simpl; [reflexivity|].
  rewrite !TokenizerCase.lower_idem, IH. reflexivity.
Qed.

(** The header loop passes over the headers of other names. *)
Lemma auth_from_headers_challenges (items : list (string * string)) :
  auth_from_headers (challenge_headers items) = auth_from_headers items.
Proof.
  unfold challenge_headers.
  induction items as [|[key val] items IH]; simpl; [reflexivity|].
  rewrite filter_cons. simpl.
  destruct (String.eqb_spec (Py.lower key) "www-authenticate") as [Hk|Hk].
  - rewrite decide_True by exact Hk. simpl.
    rewrite Hk. simpl. rewrite IH. reflexivity.
  - rewrite decide_False by exact Hk. exact IH.
Qed.

End ClassifierRange.

(** X3. Whatever the classifier returns has a signing strategy: a returned
    auth type is the no-authentication type, digest, NTLM or basic, never
    [UNKNOWN]; it is a key of [AUTH_TYPE_MAP], so [get_auth_instance] never
    answers a classified response with the [ValueError] of an unsupported
    type. *)
Theorem classified_type_is_supported (response : Response) (auth_type : string) :
  _get_auth_method_from_response response = Return auth_type ->
  auth_type ∈ negotiable
  /\ auth_type <> UNKNOWN
  /\ is_Some (AUTH_TYPE_MAP !! auth_type)
  /\ forall (credentials : option Credentials) (value : string),
       get_auth_instance credentials auth_type <> Raise (ValueError value).
Proof.
  intros H. apply ClassifierRange.classifier_range in H.
  split; [exact H|]. split.
  - intros ->. unfold negotiable in H. rewrite !elem_of_cons, elem_of_nil in H.
    destruct H as [H|[H|[H|[H|[]]]]]; discriminate H.
  - split; [apply ClassifierRange.negotiable_lookup, H|].
    intros credentials value.
    apply ClassifierRange.supported_no_ValueError, ClassifierRange.negotiable_lookup, H.
Qed.

(** An NTLM challenge resolves to a type that the signing table knows. *)
Lemma classified_type_is_supported_witness :
  NTLM ∈ negotiable /\ is_Some (AUTH_TYPE_MAP !! NTLM).
Proof.
  destruct (classified_type_is_supported
              (challenge_response [("WWW-Authenticate", "Negotiate, NTLM")]) NTLM eq_refl)
    as (H1 & _ & H3 & _).
  split; assumption.
Defined.

(** X4. The classifier is blind to letter case in header names and header
    values: two responses that agree on status, reason and redirect data, and
    whose headers agree once names and values are lower-cased, are classified
    alike. *)
Theorem classifier_case_insensitive (response response' : Response) :
  status_code response = status_code response' ->
  reason response = reason response' ->
  request_url response = request_url response' ->
  location response = location response' ->
  map lower_header (headers response) = map lower_header (headers response') ->
  _get_auth_method_from_response response = _get_auth_method_from_response response'.
Proof.
  intros Hs Hr Hu Hl Hh.
  unfold _get_auth_method_from_response, get_redirect_url.
  rewrite Hs, Hr, Hu, Hl.
  rewrite <- (ClassifierRange.auth_from_headers_lower (headers response)), Hh,
    ClassifierRange.auth_from_headers_lower.
  reflexivity.
Qed.

(** An upper-case and a lower-case spelling of the same challenge. *)
Lemma classifier_case_insensitive_witness :
  _get_auth_method_from_response
    (challenge_response [("WWW-AUTHENTICATE", "NTLM, BASIC REALM=X")])
  = _get_auth_method_from_response
      (challenge_response [("www-authenticate", "ntlm, basic realm=x")]).
Proof.
  apply classifier_case_insensitive; reflexivity.
Defined.

(** X5. Apart from a 302, which is classified by its redirect target, only
    the challenge headers count: two responses with the same status, other
    than 302, and the same reason are classified alike when the status is not
    401, whatever their headers are, and when the status is 401 and their
    headers named www-authenticate are the same, whatever their other headers
    are. *)
Theorem classifier_reads_challenges_only (response response' : Response) :
  status_code response = status_code response' ->
  reason response = reason response' ->
  status_code response <> 302 ->
  (status_code response = 401 ->
   challenge_headers (headers response) = challenge_headers (headers response')) ->
  _get_auth_method_from_response response = _get_auth_method_from_response response'.
Proof.
  intros Hs Hr H302 Hc. unfold _get_auth_method_from_response.
  rewrite <- Hs, <- Hr.
  destruct (status_code response =? 200); [reflexivity|].
  apply Z.eqb_neq in H302. rewrite H302.
  destruct (status_code response =? 401) eqn:H401; [|reflexivity]. simpl.
  apply Z.eqb_eq in H401.
  rewrite <- (ClassifierRange.auth_from_headers_challenges (headers response)),
    (Hc H401), ClassifierRange.auth_from_headers_challenges.
  reflexivity.
Qed.

(** The same challenge among different other headers. *)
Lemma classifier_reads_challenges_only_witness :
  _get_auth_method_from_response
    (challenge_response
       [("Server", "Microsoft-IIS/8.5"); ("WWW-Authenticate", "NTLM");
        ("Location", "https://otherhost/owa/")])
  = _get_auth_method_from_response
      (challenge_response [("WWW-Authenticate", "NTLM"); ("Content-Length", "0")]).
Proof.
  apply classifier_reads_challenges_only;
    [reflexivity|reflexivity|discriminate|reflexivity].
Defined.

(** ** The outcomes of [get_auth_instance] *)

Module AuthOutcomes.

Lemma keyed_cases (auth_type : string) :
  auth_type = NTLM \/ auth_type = BASIC \/ auth_type = DIGEST \/ auth_type = NOAUTH
  \/ AUTH_TYPE_MAP !! auth_type = None.
Proof.
  rewrite AUTH_TYPE_MAP_lookup.
  repeat (case_decide; [subst auth_type; tauto|]). tauto.
Qed.

Lemma elem_of_three (auth_type : string) :
  auth_type ∈ [NTLM; BASIC; DIGEST]
  <-> auth_type = NTLM \/ auth_type = BASIC \/ auth_type = DIGEST.
Proof. rewrite !elem_of_cons, elem_of_nil. tauto. Qed.

Lemma elem_of_four (auth_type : string) :
  auth_type ∈ [NTLM; BASIC; DIGEST; NOAUTH]
  <-> auth_type = NTLM \/ auth_type = BASIC \/ auth_type = DIGEST \/ auth_type = NOAUTH.
Proof. rewrite !elem_of_cons, elem_of_nil. tauto. Qed.

(** The instance built for a class of the table. *)
Lemma built_instance (c : Credentials) (auth_type : string) (model : AuthModel) :
  AUTH_TYPE_MAP !! auth_type = Some (Some model) ->
  get_auth_instance (Some c) auth_type
  = Return (Some {| auth_model := model;
                    auth_username :=
                      if String.eqb auth_type NTLM && String.eqb (type c) (EMAIL c)
                      then Py.chr Py.backslash +:+ username c else username c;
                    auth_password := password c |}).
Proof.
  intros Hm. unfold get_auth_instance. rewrite Hm. simpl.
  destruct (String.eqb auth_type NTLM); simpl; [|reflexivity].
  destruct (String.eqb (type c) (EMAIL c)); reflexivity.
Qed.

Lemma model_of_type (auth_type : string) (model : AuthModel) :
  AUTH_TYPE_MAP !! auth_type = Some (Some model) ->
  auth_type ∈ [NTLM; BASIC; DIGEST] /\ (model = HttpNtlmAuth <-> auth_type = NTLM).
Proof.
  rewrite AUTH_TYPE_MAP_lookup, elem_of_three.
  destruct (decide (NTLM = auth_type)) as [<-|H1].
  { intros [= <-]. split; [tauto|]. split; reflexivity. }
  destruct (decide (BASIC = auth_type)) as [<-|H2].
  { intros [= <-]. split; [tauto|]. split; intros H; vm_compute in H; discriminate H. }
  destruct (decide (DIGEST = auth_type)) as [<-|H3].
  { intros [= <-]. split; [tauto|]. split; intros H; vm_compute in H; discriminate H. }
  destruct (decide (NOAUTH = auth_type)); intros H; discriminate H.
Qed.

End AuthOutcomes.

(** X6. The outcome of [get_auth_instance] tells the case apart.  It returns
    [None] exactly for the no-authentication type; it raises [ValueError]
    exactly for a type outside the table; it raises [AttributeError] exactly
    when the type is NTLM, basic or digest and the credentials are absent; and
    every instance it returns carries the password of the credentials
    unchanged, their username with at most a backslash put before it, and the
    NTLM class exactly for the NTLM type. *)
Theorem get_auth_instance_outcomes (credentials : option Credentials) (auth_type : string) :
  (get_auth_instance credentials auth_type = Return None <-> auth_type = NOAUTH)
  /\ ((exists value, get_auth_instance credentials auth_type = Raise (ValueError value))
      <-> auth_type ∉ [NTLM; BASIC; DIGEST; NOAUTH])
  /\ ((exists value, get_auth_instance credentials auth_type = Raise (AttributeError value))
      <-> auth_type ∈ [NTLM; BASIC; DIGEST] /\ credentials = None)
  /\ (forall inst : AuthInstance,
        get_auth_instance credentials auth_type = Return (Some inst) ->
        exists c : Credentials,
          credentials = Some c
          /\ auth_password inst = password c
          /\ (auth_username inst = username c
              \/ auth_username inst = Py.chr Py.backslash +:+ username c)
          /\ (auth_model inst = HttpNtlmAuth <-> auth_type = NTLM)).
Proof.
  rewrite AuthOutcomes.elem_of_three, AuthOutcomes.elem_of_four.
  destruct (AUTH_TYPE_MAP !! auth_type) as [[model|]|] eqn:Hm.
  - (* a class of the table *)
    destruct (AuthOutcomes.model_of_type _ _ Hm) as [Hin Hmodel].
    apply AuthOutcomes.elem_of_three in Hin.
    assert (Hno : auth_type <> NOAUTH)
      by (intros ->; rewrite AUTH_TYPE_MAP_lookup in Hm; discriminate Hm).
    destruct credentials as [c|].
    + rewrite (AuthOutcomes.built_instance c _ _ Hm).
      repeat apply conj.
      * discriminate.
      * intros H. contradiction.
      * intros [value H]. discriminate H.
      * intros H. exfalso. apply H. tauto.
      * intros [value H]. discriminate H.
      * intros [_ H]. discriminate H.
      * intros inst [= <-]. exists c. simpl.
        split; [reflexivity|]. split; [reflexivity|]. split; [|exact Hmodel].
        destruct (String.eqb auth_type NTLM && String.eqb (type c) (EMAIL c)); auto.
    + unfold get_auth_instance. rewrite Hm. simpl.
      repeat apply conj.
      * discriminate.
      * intros H. contradiction.
      * intros [value H]. discriminate H.
      * intros H. exfalso. apply H. tauto.
      * intros _. split; [exact Hin|reflexivity].
      * intros _. eexists. reflexivity.
      * intros inst H. discriminate H.
  - (* the no-authentication entry *)
    assert (Hno : auth_type = NOAUTH).
    { rewrite AUTH_TYPE_MAP_lookup in Hm. repeat case_decide; try discriminate Hm.
      symmetry. assumption. }
    unfold get_auth_instance. rewrite Hm. subst auth_type.
    repeat apply conj.
    + intros _. reflexivity.
    + intros _. reflexivity.
    + intros [value H]. discriminate H.
    + intros H. exfalso. apply H. tauto.
    + intros [value H]. discriminate H.
    + intros [[H|[H|H]] _]; vm_compute in H; discriminate H.
    + intros inst H. discriminate H.
  - (* no entry *)
    assert (Hout : ~ (auth_type = NTLM \/ auth_type = BASIC \/ auth_type = DIGEST
                      \/ auth_type = NOAUTH)).
    { intros [->|[->|[->| ->]]]; rewrite AUTH_TYPE_MAP_lookup in Hm; discriminate Hm. }
    unfold get_auth_instance. rewrite Hm.
    repeat apply conj.
    + discriminate.
    + intros ->. exfalso. apply Hout. tauto.
    + intros _. exact Hout.
    + intros _. eexists. reflexivity.
    + intros [value H]. discriminate H.
    + intros [H _]. exfalso. apply Hout. tauto.
    + intros inst H. discriminate H.
Qed.

Section SilentFailure.

Variable is_xml : string -> bool.

(** X7. The signing strategy decides what an empty body means.  With the
    strategy that [get_auth_instance] builds for an auth type, an empty body
    that does not pass the XML test is reported as unauthorized exactly when
    the type is NTLM; for every other type it is an unknown response. *)
Theorem empty_body_after_negotiation (credentials : option Credentials)
  (auth_type : string) (auth : option AuthInstance) (response : Response) :
  get_auth_instance credentials auth_type = Return auth ->
  is_xml EmptyString = false ->
  text response = EmptyString ->
  _test_response is_xml auth response
  = if String.eqb auth_type NTLM
    then Raise (UnauthorizedError "Unauthorized (NTLM, empty response)")
    else Raise (TransportError
                  ("Unknown response from Exchange:" +:+ Py.chr Py.newline
                   +:+ Py.chr Py.newline)).
Proof.
  intros Hget Hxml Htext. unfold _test_response. rewrite Htext, Hxml. simpl.
  destruct auth as [inst|].
  - destruct (get_auth_instance_outcomes credentials auth_type)
      as (_ & _ & _ & Hinst).
    destruct (Hinst inst Hget) as (c & _ & _ & _ & Hmodel).
    unfold is_ntlm_instance.
    destruct (String.eqb_spec auth_type NTLM) as [Hn|Hn].
    + rewrite bool_decide_eq_true_2 by (apply Hmodel, Hn). reflexivity.
    + rewrite bool_decide_eq_false_2 by (intros H; apply Hn, Hmodel, H). reflexivity.
  - destruct (get_auth_instance_outcomes credentials auth_type) as (Hnone & _).
    apply Hnone in Hget. subst auth_type. reflexivity.
Qed.


End SilentFailure.

(** The basic strategy and an empty body. *)
Lemma empty_body_after_negotiation_witness :
  _test_response (fun _ => false)
    (Some (MkAuth HTTPBasicAuth "jane" "secret"))
    {| status_code := 200; reason := "OK"; headers := []; text := EmptyString;
       request_url := MkUrl true "host1" "/EWS/Exchange.asmx"; location := None |}
  = Raise (TransportError
             ("Unknown response from Exchange:" +:+ Py.chr Py.newline
              +:+ Py.chr Py.newline)).
Proof.
  exact (empty_body_after_negotiation (fun _ => false)
           (Some (MkCredentials "jane" "secret" "domain" "email")) BASIC
           (Some (MkAuth HTTPBasicAuth "jane" "secret"))
           {| status_code := 200; reason := "OK"; headers := []; text := EmptyString;
              request_url := MkUrl true "host1" "/EWS/Exchange.asmx"; location := None |}
           eq_refl eq_refl eq_refl).
Defined.

(** ** The unauthorized test *)

(** X13. [_is_unauthorized] answers [True] exactly for a text that holds the
    word unauthorized somewhere, in any mix of upper-case and lower-case
    letters, be it inside a longer word. *)
Theorem unauthorized_detection (txt : string) :
  _is_unauthorized txt = true <-> contains_ci txt "unauthorized".
Proof.
  split; intros H.
  - apply Validation.is_unauthorized_iff. exact H.
  - apply Validation.is_unauthorized_iff. exact H.
Qed.

(** ** What the envelope depends on *)

Module EnvelopeShape.

(** The element tree in one piece. *)
Lemma envelope_of_explicit (content : Element) (version : string)
  (account : option Account) (ewstimezone : option EWSTimeZone) :
  envelope_of content version account ewstimezone
  = Elem "s:Envelope" [("xmlns:s", SOAPNS); ("xmlns:t", TNS); ("xmlns:m", MNS)] None
      [Elem "s:Header" [] None
         (version_element version
          :: option_list (impersonation_block <$> impersonation_identity account)
          ++ option_list (timezone_block <$> timezone_id ewstimezone));
       Elem "s:Body" [] None [content]].
Proof.
  unfold envelope_of, impersonation_identity, timezone_id.
  destruct account as [a|]; [destruct (String.eqb (access_type a) IMPERSONATION)|];
    destruct ewstimezone as [tz|]; reflexivity.
Qed.

Lemma envelope_of_inj (content content' : Element) (version version' : string)
  (account account' : option Account) (ewstimezone ewstimezone' : option EWSTimeZone) :
  envelope_of content version account ewstimezone
  = envelope_of content' version' account' ewstimezone' ->
  content = content' /\ version = version'
  /\ impersonation_identity account = impersonation_identity account'
  /\ timezone_id ewstimezone = timezone_id ewstimezone'.
Proof.
  rewrite !envelope_of_explicit. intros H.
  injection H as Hv Hblocks Hc. subst.
  split; [reflexivity|]. split; [reflexivity|].
  destruct (impersonation_identity account), (impersonation_identity account'),
    (timezone_id ewstimezone), (timezone_id ewstimezone');
    simpl in Hblocks; inversion Hblocks; subst; auto.
Qed.

End EnvelopeShape.

Section EnvelopeIdentity.

Context {Bytes : Type}.
Variable xml_to_str : Element -> string -> bool -> Bytes.
Variable parse : Bytes -> option Element.

Hypothesis parse_xml_to_str :
  forall (e : Element) (encoding : string), parse (xml_to_str e encoding true) = Some e.

(** X9. The envelope tells its inputs apart and reads nothing else.  Under a
    serializer that its parser inverts, two calls of [wrap] that give the same
    bytes were given the same payload, the same version, the same
    impersonation identity and the same timezone identifier; and two calls
    that agree on these four and on the encoding give the same bytes, so that
    an account without impersonation access leaves no trace in the envelope:
    it is wrapped like no account at all. *)
Theorem wrap_determined_by_context :
  (forall content content' version version' account account' ewstimezone ewstimezone'
          encoding encoding',
     wrap xml_to_str content version account ewstimezone encoding
     = wrap xml_to_str content' version' account' ewstimezone' encoding' ->
     content = content' /\ version = version'
     /\ impersonation_identity account = impersonation_identity account'
     /\ timezone_id ewstimezone = timezone_id ewstimezone')
  /\ (forall content version account account' ewstimezone ewstimezone' encoding,
        impersonation_identity account = impersonation_identity account' ->
        timezone_id ewstimezone = timezone_id ewstimezone' ->
        wrap xml_to_str content version account ewstimezone encoding
        = wrap xml_to_str content version account' ewstimezone' encoding)
  /\ (forall content version (a : Account) ewstimezone encoding,
        access_type a <> IMPERSONATION ->
        wrap xml_to_str content version (Some a) ewstimezone encoding
        = wrap xml_to_str content version None ewstimezone encoding).
Proof.
  assert (Hsame : forall content version account account' ewstimezone ewstimezone'
                         encoding,
             impersonation_identity account = impersonation_identity account' ->
             timezone_id ewstimezone = timezone_id ewstimezone' ->
             wrap xml_to_str content version account ewstimezone encoding
             = wrap xml_to_str content version account' ewstimezone' encoding).
  { intros content version account account' ewstimezone ewstimezone' encoding Hi Ht.
    unfold wrap. rewrite !EnvelopeShape.envelope_of_explicit, Hi, Ht. reflexivity. }
  repeat apply conj.
  - intros content content' version version' account account' ewstimezone ewstimezone'
           encoding encoding' H.
    unfold wrap in H. apply (f_equal parse) in H.
    rewrite !parse_xml_to_str in H. apply (inj Some) in H.
    apply EnvelopeShape.envelope_of_inj in H. exact H.
  - exact Hsame.
  - intros content version a ewstimezone encoding Ha.
    apply Hsame; [|reflexivity]. simpl.
    apply String.eqb_neq in Ha. rewrite Ha. reflexivity.
Qed.

End EnvelopeIdentity.

(** A delegate account is wrapped like no account. *)
Lemma wrap_determined_by_context_witness :
  wrap (fun e _ _ => e) (Elem "m:ResolveNames" [] None []) "Exchange2010"
    (Some (MkAccount "delegate" "jane@example.com")) None "utf-8"
  = wrap (fun e _ _ => e) (Elem "m:ResolveNames" [] None []) "Exchange2010"
      None None "utf-8".
Proof.
  apply (proj2 (proj2 (wrap_determined_by_context (fun e _ _ => e) Some
                         (fun _ _ => eq_refl)))).
  discriminate.
Defined.

(** ** What the probes send and return *)

Section ProbeRequests.

Context {Server : Type}.
Variable exchange : Request -> Server -> Response * Server.
Variable dummy_xml : string -> string -> string.
Variable isinstance_TransportError : exn -> bool.

Variables (endpoint : string) (tls : bool) (who : string).

Local Abbreviation request_for := (service_request dummy_xml endpoint tls who).
Local Abbreviation loop :=
  (service_loop exchange dummy_xml isinstance_TransportError endpoint tls who).

(** The loop sends the requests of a first part of the versions, in order. *)
Lemma service_loop_sent (versions : list string) (s : Session Server) :
  exists n : nat,
    sent (loop versions s).2 = sent s ++ map request_for (take n versions).
Proof.
  revert s. induction versions as [|version versions IH]; intros s; simpl.
  - exists 0%nat. rewrite app_nil_r. reflexivity.
  - pose proof (send_sent exchange (request_for version) s) as Hs.
    destruct (send exchange (request_for version) s) as [r s1]. simpl in Hs.
    assert (Hstop : forall out : result string,
               exists n : nat,
                 sent (out, s1).2
                 = sent s ++ map request_for (take n (version :: versions))).
    { intros out. exists 1%nat. exact Hs. }
    destruct (_get_auth_method_from_response r) as [a|e]; [apply Hstop|].
    destruct (isinstance_TransportError e); [|apply Hstop].
    destruct (IH s1) as [n Hn]. exists (S n).
    rewrite Hn, Hs, <- app_assoc. reflexivity.
Qed.

(** Of the failures that [except TransportError] catches, only the last one,
    raised after the loop, leaves the probe. *)
Lemma service_loop_caught (versions : list string) (s : Session Server) (e : exn) :
  (loop versions s).1 = Raise e ->
  isinstance_TransportError e = true ->
  e = TransportError "Failed to get auth type from service".
Proof.
  revert s. induction versions as [|version versions IH]; intros s; simpl.
  - intros [= <-] _. reflexivity.
  - destruct (send exchange (request_for version) s) as [r s1].
    destruct (_get_auth_method_from_response r) as [a|e']; [discriminate|].
    destruct (isinstance_TransportError e') eqn:He'; [apply IH|].
    simpl. intros [= <-] H. congruence.
Qed.

(** An auth type is returned only after a request. *)
Lemma service_loop_returns (versions : list string) (s : Session Server) (a : string) :
  (loop versions s).1 = Return a ->
  (length (sent s) < length (sent (loop versions s).2))%nat.
Proof.
  revert s. induction versions as [|version versions IH]; intros s; simpl.
  - discriminate.
  - pose proof (send_sent exchange (request_for version) s) as Hs.
    destruct (send exchange (request_for version) s) as [r s1]. simpl in Hs.
    assert (Hlen : (length (sent s) < length (sent s1))%nat)
      by (rewrite Hs, length_app; simpl; lia).
    destruct (_get_auth_method_from_response r) as [a'|e]; [intros _; exact Hlen|].
    destruct (isinstance_TransportError e); [|discriminate].
    intros H. specialize (IH s1 H). lia.
Qed.

(** X10. Whatever the remote end answers, the service probe sends nothing but
    the dummy requests of a first part of the versions, in the order of the
    list and at most one for each version, all of them POST requests to the
    endpoint of the caller; it returns an auth type only after it sent a
    request; and when it raises a failure of a class that
    [except TransportError] catches, that failure is the one raised after the
    loop: the caught failures of the single versions never reach the
    caller. *)
Theorem service_probe_requests (versions : list string) (remote0 : Server) :
  (exists n : nat,
     sent (get_service_authtype exchange dummy_xml isinstance_TransportError
             endpoint versions tls who remote0).2
     = map request_for (take n versions))
  /\ Forall (fun req => method req = POST /\ url req = endpoint)
       (sent (get_service_authtype exchange dummy_xml isinstance_TransportError
                endpoint versions tls who remote0).2)
  /\ (forall auth_type : string,
        (get_service_authtype exchange dummy_xml isinstance_TransportError
           endpoint versions tls who remote0).1 = Return auth_type ->
        sent (get_service_authtype exchange dummy_xml isinstance_TransportError
                endpoint versions tls who remote0).2 <> [])
  /\ (forall e : exn,
        (get_service_authtype exchange dummy_xml isinstance_TransportError
           endpoint versions tls who remote0).1 = Raise e ->
        isinstance_TransportError e = true ->
        e = TransportError "Failed to get auth type from service").
Proof.
  unfold get_service_authtype.
  destruct (service_loop_sent versions {| remote := remote0; sent := [] |}) as [n Hn].
  simpl in Hn. repeat apply conj.
  - exists n. exact Hn.
  - rewrite Hn. apply Forall_forall. intros req Hreq.
    apply list_elem_of_fmap in Hreq as (version & -> & _). split; reflexivity.
  - intros auth_type H. apply service_loop_returns in H. simpl in H.
    intros Hnil. rewrite Hnil in H. simpl in H. lia.
  - intros e. apply service_loop_caught.
Qed.

Variables (payload : string) (time_limit : Z).

(** X11. Whatever the remote end answers, the autodiscover probe sends its
    HEAD request and at most one POST request after it, both to the endpoint
    of the caller and both without following redirects: the target of a
    redirect is never requested.  The probe returns an auth type only when
    the POST was sent. *)
Theorem autodiscover_probe_requests (remote0 : Server) :
  (sent (get_autodiscover_authtype exchange endpoint payload time_limit tls remote0).2
   = [autodiscover_head endpoint time_limit tls]
   \/ sent (get_autodiscover_authtype exchange endpoint payload time_limit tls remote0).2
      = [autodiscover_head endpoint time_limit tls;
         autodiscover_post endpoint payload time_limit tls])
  /\ Forall (fun req => url req = endpoint /\ allow_redirects req = false)
       (sent (get_autodiscover_authtype exchange endpoint payload time_limit tls
                remote0).2)
  /\ (forall auth_type : string,
        (get_autodiscover_authtype exchange endpoint payload time_limit tls remote0).1
        = Return auth_type ->
        sent (get_autodiscover_authtype exchange endpoint payload time_limit tls
                remote0).2
        = [autodiscover_head endpoint time_limit tls;
           autodiscover_post endpoint payload time_limit tls]).
Proof.
  assert (H : (sent (get_autodiscover_authtype exchange endpoint payload time_limit tls
                       remote0).2
               = [autodiscover_head endpoint time_limit tls]
               /\ forall auth_type : string,
                    (get_autodiscover_authtype exchange endpoint payload time_limit tls
                       remote0).1 <> Return auth_type)
              \/ sent (get_autodiscover_authtype exchange endpoint payload time_limit tls
                         remote0).2
                 = [autodiscover_head endpoint time_limit tls;
                    autodiscover_post endpoint payload time_limit tls]).
  { unfold get_autodiscover_authtype.
    fold (autodiscover_head endpoint time_limit tls).
    fold (autodiscover_post endpoint payload time_limit tls).
    pose proof (send_sent exchange (autodiscover_head endpoint time_limit tls)
                  {| remote := remote0; sent := [] |}) as Hs1.
    destruct (send exchange (autodiscover_head endpoint time_limit tls)
                {| remote := remote0; sent := [] |}) as [r s1].
    simpl in Hs1.
    pose proof (send_sent exchange (autodiscover_post endpoint payload time_limit tls) s1)
      as Hs2.
    rewrite Hs1 in Hs2.
    destruct (status_code r =? 302).
    - destruct (get_redirect_url r true true) as [x|e].
      + right. destruct (send exchange _ s1). exact Hs2.
      + left. destruct e; simpl; (split; [exact Hs1|discriminate]).
    - right. destruct (send exchange _ s1). exact Hs2. }
  repeat apply conj.
  - destruct H as [[H _]|H]; [left|right]; exact H.
  - destruct H as [[H _]|H]; rewrite H; repeat constructor.
  - intros auth_type Hr. destruct H as [[_ H]|H]; [|exact H].
    exfalso. exact (H auth_type Hr).
Qed.

(** An auth type with an entry in the table gives a strategy, or [None],
    for present credentials. *)
Lemma negotiable_builds (c : Credentials) (auth_type : string) :
  auth_type ∈ negotiable ->
  exists auth : option AuthInstance, get_auth_instance (Some c) auth_type = Return auth.
Proof.
  intros H. apply ClassifierRange.negotiable_lookup in H as [[model|] Hm].
  - rewrite (AuthOutcomes.built_instance c _ _ Hm). eexists. reflexivity.
  - unfold get_auth_instance. rewrite Hm. eexists. reflexivity.
Qed.

(** X12. What a probe returns can be signed.  Whichever of the three probes
    returns an auth type, the type is the no-authentication type, digest, NTLM
    or basic, and [get_auth_instance] turns it and any present credentials
    into a signing strategy or [None], without a failure. *)
Theorem probe_result_builds (versions : list string) (docs_url : string)
  (remote0 : Server) (auth_type : string) (c : Credentials) :
  (get_autodiscover_authtype exchange endpoint payload time_limit tls remote0).1
  = Return auth_type
  \/ (get_docs_authtype exchange docs_url tls remote0).1 = Return auth_type
  \/ (get_service_authtype exchange dummy_xml isinstance_TransportError
        endpoint versions tls who remote0).1 = Return auth_type ->
  auth_type ∈ negotiable
  /\ exists auth : option AuthInstance,
       get_auth_instance (Some c) auth_type = Return auth.
Proof.
  intros H.
  assert (Hin : auth_type ∈ negotiable); [|split; [exact Hin|apply negotiable_builds, Hin]].
  destruct H as [H|[H|H]].
  - unfold get_autodiscover_authtype in H.
    destruct (send exchange _ {| remote := remote0; sent := [] |}) as [r s1].
    assert (Hpost : forall s : Session Server,
               (let '(r0, s0) :=
                  send exchange
                    {| method := POST; url := endpoint; req_headers := content_type;
                       data := Some payload; timeout := Some time_limit;
                       allow_redirects := false; verify := tls |} s in
                (_get_auth_method_from_response r0, s0)).1 = Return auth_type ->
               auth_type ∈ negotiable).
    { intros s. destruct (send exchange _ s) as [r0 s0]. simpl.
      apply ClassifierRange.classifier_range. }
    destruct (status_code r =? 302); [|exact (Hpost _ H)].
    destruct (get_redirect_url r true true) as [x|e]; [exact (Hpost _ H)|].
    destruct e; discriminate H.
  - unfold get_docs_authtype in H.
    destruct (send exchange _ {| remote := remote0; sent := [] |}) as [r s1].
    simpl in H. exact (ClassifierRange.classifier_range _ _ H).
  - unfold get_service_authtype in H.
    revert H. generalize {| remote := remote0; sent := ([] : list Request) |}.
    induction versions as [|version versions' IH]; intros s; simpl; [discriminate|].
    destruct (send exchange (request_for version) s) as [r s1].
    destruct (_get_auth_method_from_response r) as [a|e] eqn:Hr.
    + simpl. intros [= <-]. exact (ClassifierRange.classifier_range _ _ Hr).
    + destruct (isinstance_TransportError e); [apply IH|discriminate].
Qed.

End ProbeRequests.

(** The scripted service probe returns NTLM, and NTLM can be signed. *)
Lemma probe_result_builds_witness :
  NTLM ∈ negotiable
  /\ exists auth : option AuthInstance,
       get_auth_instance (Some (MkCredentials "jane" "secret" "domain" "email")) NTLM
       = Return auth.
Proof.
  apply (probe_result_builds scripted example_dummy_xml derives_from_TransportError
           "https://host1/EWS/Exchange.asmx" true "jane" "<Autodiscover/>" 10
           ["Exchange2007"; "Exchange2010"] "https://host1/docs"
           [server_error; challenge_response [("WWW-Authenticate", "Negotiate, NTLM")]]
           NTLM (MkCredentials "jane" "secret" "domain" "email")).
  right. right. reflexivity.
Defined.

(** ** The service probe on a client that may fail *)

Section FailingClient.

Context {Server : Type}.
Variable attempt : Request -> Server -> Attempt * Server.
Variable dummy_xml : string -> string -> string.
Variable isinstance_TransportError : exn -> bool.

Variables (endpoint : string) (tls : bool) (who : string).

Local Abbreviation request_for := (service_request dummy_xml endpoint tls who).
Local Abbreviation loop :=
  (Net.service_loop attempt dummy_xml isinstance_TransportError endpoint tls who).
Local Abbreviation attempts := (Net.attempt_all attempt dummy_xml endpoint tls who).
Local Abbreviation is_folded := (Net.folded isinstance_TransportError).

Lemma net_send_sent (req : Request) (s : Session Server) :
  sent (Net.send attempt req s).2 = sent s ++ [req].
Proof. unfold Net.send. destruct (attempt req (remote s)). reflexivity. Qed.

Lemma attempt_all_sent (versions : list string) (s : Session Server) :
  sent (attempts versions s).2 = sent s ++ map request_for versions.
Proof.
  revert s. induction versions as [|version versions IH]; intros s; simpl.
  - rewrite app_nil_r. reflexivity.
  - pose proof (net_send_sent (request_for version) s) as Hs.
    destruct (Net.send attempt (request_for version) s) as [a s1]. simpl in Hs.
    specialize (IH s1). destruct (attempts versions s1) as [rest s2]. simpl in *.
    rewrite IH, Hs, <- app_assoc. reflexivity.
Qed.

(** Versions whose attempts are folded are passed over. *)
Lemma net_loop_folded (tried rest : list string) (s : Session Server) :
  forallb is_folded (attempts tried s).1 = true ->
  loop (tried ++ rest) s = loop rest (attempts tried s).2.
Proof.
  revert s. induction tried as [|version tried IH]; intros s; simpl; [reflexivity|].
  destruct (Net.send attempt (request_for version) s) as [a s1].
  destruct (attempts tried s1) as [others s2] eqn:E. simpl. intros H.
  apply andb_true_iff in H as [Ha Hothers].
  destruct a as [r|value]; [|discriminate Ha].
  simpl in Ha. unfold folded in Ha.
  destruct (_get_auth_method_from_response r) as [t|e]; [discriminate|].
  rewrite Ha, IH; rewrite E; [reflexivity|exact Hothers].
Qed.

(** An answer that is not folded decides. *)
Lemma net_loop_stops (version : string) (rest : list string) (s : Session Server)
  (r : Response) :
  (Net.send attempt (request_for version) s).1 = Answered r ->
  folded isinstance_TransportError r = false ->
  loop (version :: rest) s
  = (Finished (_get_auth_method_from_response r),
     (Net.send attempt (request_for version) s).2).
Proof.
  simpl. destruct (Net.send attempt (request_for version) s) as [a s1]. simpl.
  intros -> Hr. unfold folded in Hr.
  destruct (_get_auth_method_from_response r) as [t|e]; [reflexivity|].
  rewrite Hr. reflexivity.
Qed.

(** A failure of the client leaves the loop at once. *)
Lemma net_loop_escapes (version : string) (rest : list string) (s : Session Server)
  (value : string) :
  (Net.send attempt (request_for version) s).1 = ClientError value ->
  loop (version :: rest) s
  = (Escaped value, (Net.send attempt (request_for version) s).2).
Proof.
  simpl. destruct (Net.send attempt (request_for version) s) as [a s1]. simpl.
  intros ->. reflexivity.
Qed.

(** The clause [except TransportError] catches a [TransportError]. *)
Hypothesis TransportError_caught :
  forall value : string, isinstance_TransportError (TransportError value) = true.

(** C6, amended. The service probe posts the dummy request of each version in
    the given order, one request per version.  An answer whose classification
    is a failure caught as [TransportError], such as an unexpected status, is
    folded into the next version.  A failure of the POST itself, raised by the
    HTTP client, is not folded: it ends the probe at that version and leaves
    it as it is.  The first version whose answer is not folded decides: the
    classification of the answer is the outcome of the probe.  In both cases
    the requests sent are those of the versions up to that one and no other.
    When the answers of all versions are folded, the probe fails with the
    [TransportError] that tells that no auth type was found, after one request
    per version. *)
Theorem service_probe_with_client_failures (remote0 : Server) :
  (forall r : Response,
     status_code r <> 200 -> status_code r <> 302 -> status_code r <> 401 ->
     is_folded (Answered r) = true)
  /\ (forall (tried : list string) (version : string) (rest : list string) (r : Response),
        let s := (attempts tried {| remote := remote0; sent := [] |}).2 in
        forallb is_folded (attempts tried {| remote := remote0; sent := [] |}).1 = true ->
        (Net.send attempt (request_for version) s).1 = Answered r ->
        is_folded (Answered r) = false ->
        Net.get_service_authtype attempt dummy_xml isinstance_TransportError
          endpoint (tried ++ version :: rest) tls who remote0
        = (Finished (_get_auth_method_from_response r),
           (Net.send attempt (request_for version) s).2)
        /\ sent (Net.send attempt (request_for version) s).2
           = map request_for (tried ++ [version]))
  /\ (forall (tried : list string) (version : string) (rest : list string)
             (value : string),
        let s := (attempts tried {| remote := remote0; sent := [] |}).2 in
        forallb is_folded (attempts tried {| remote := remote0; sent := [] |}).1 = true ->
        (Net.send attempt (request_for version) s).1 = ClientError value ->
        Net.get_service_authtype attempt dummy_xml isinstance_TransportError
          endpoint (tried ++ version :: rest) tls who remote0
        = (Escaped value, (Net.send attempt (request_for version) s).2)
        /\ sent (Net.send attempt (request_for version) s).2
           = map request_for (tried ++ [version]))
  /\ (forall versions : list string,
        forallb is_folded (attempts versions {| remote := remote0; sent := [] |}).1 = true ->
        Net.get_service_authtype attempt dummy_xml isinstance_TransportError
          endpoint versions tls who remote0
        = (Finished (Raise (TransportError "Failed to get auth type from service")),
           (attempts versions {| remote := remote0; sent := [] |}).2)
        /\ sent (attempts versions {| remote := remote0; sent := [] |}).2
           = map request_for versions).
Proof.
  assert (Hsent : forall tried version,
             sent (Net.send attempt (request_for version)
                     (attempts tried {| remote := remote0; sent := [] |}).2).2
             = map request_for (tried ++ [version])).
  { intros tried version. rewrite net_send_sent, attempt_all_sent, map_app. reflexivity. }
  repeat apply conj.
  - intros r H200 H302 H401. simpl. unfold folded, _get_auth_method_from_response.
    apply Z.eqb_neq in H200, H302, H401. rewrite H200, H302, H401. simpl.
    apply TransportError_caught.
  - intros tried version rest r s Hf Ha Hr. split; [|apply Hsent].
    unfold Net.get_service_authtype. rewrite (net_loop_folded _ _ _ Hf).
    apply net_loop_stops; [exact Ha|exact Hr].
  - intros tried version rest value s Hf Ha. split; [|apply Hsent].
    unfold Net.get_service_authtype. rewrite (net_loop_folded _ _ _ Hf).
    apply net_loop_escapes. exact Ha.
  - intros versions Hf. split; [|apply attempt_all_sent].
    unfold Net.get_service_authtype.
    rewrite <- (app_nil_r versions) at 1.
    rewrite (net_loop_folded _ _ _ Hf). reflexivity.
Qed.

End FailingClient.

Section AnsweringClient.

Context {Server : Type}.
Variable exchange : Request -> Server -> Response * Server.
Variable dummy_xml : string -> string -> string.
Variable isinstance_TransportError : exn -> bool.

(** On a client that always gets an answer, the probe is the one studied
    above. *)
Lemma net_loop_answering (endpoint : string) (tls : bool) (who : string)
  (versions : list string) (s : Session Server) :
  Net.service_loop (Net.answering exchange) dummy_xml isinstance_TransportError
    endpoint tls who versions s
  = (Finished
       (service_loop exchange dummy_xml isinstance_TransportError
          endpoint tls who versions s).1,
     (service_loop exchange dummy_xml isinstance_TransportError
        endpoint tls who versions s).2).
Proof.
  revert s. induction versions as [|version versions IH]; intros s; simpl.
  - reflexivity.
  - unfold Net.send, Net.answering, send.
    destruct (exchange (service_request dummy_xml endpoint tls who version) (remote s))
      as [r remote'].
    destruct (_get_auth_method_from_response r) as [t|e]; [reflexivity|].
    destruct (isinstance_TransportError e); [apply IH|reflexivity].
Qed.

End AnsweringClient.

(** C6, as stated, fails: the POST of the first version ends in a timeout of
    the client, the second version would be answered with an NTLM challenge,
    and the probe ends with the timeout after its first request. *)
Lemma client_failure_aborts_service_probe :
  Net.get_service_authtype Net.scripted example_dummy_xml derives_from_TransportError
    "https://host1/EWS/Exchange.asmx" ["Exchange2007"; "Exchange2010"] true "jane"
    [ClientError "Read timed out";
     Answered (challenge_response [("WWW-Authenticate", "Negotiate, NTLM")])]
  = (Escaped "Read timed out",
     {| remote := [Answered (challenge_response [("WWW-Authenticate", "Negotiate, NTLM")])];
        sent := [service_request example_dummy_xml "https://host1/EWS/Exchange.asmx"
                   true "jane" "Exchange2007"] |})
  /\ _get_auth_method_from_response
       (challenge_response [("WWW-Authenticate", "Negotiate, NTLM")])
     = Return NTLM.
Proof. split; reflexivity. Qed.

(** The first version is answered with status 500 and folded; the POST of the
    second ends in a timeout, which ends the probe; the third is never
    sent. *)
Lemma service_probe_with_client_failures_witness :
  Net.get_service_authtype Net.scripted example_dummy_xml derives_from_TransportError
    "https://host1/EWS/Exchange.asmx"
    ["Exchange2007"; "Exchange2010"; "Exchange2013"] true "jane"
    [Answered server_error; ClientError "Read timed out"]
  = (Escaped "Read timed out",
     {| remote := [];
        sent := map (service_request example_dummy_xml
                       "https://host1/EWS/Exchange.asmx" true "jane")
                  ["Exchange2007"; "Exchange2010"] |}).
Proof.
  exact (proj1 (proj1 (proj2 (proj2
           (service_probe_with_client_failures Net.scripted example_dummy_xml
              derives_from_TransportError "https://host1/EWS/Exchange.asmx" true "jane"
              (fun _ => eq_refl)
              [Answered server_error; ClientError "Read timed out"])))
           ["Exchange2007"] "Exchange2010" ["Exchange2013"] "Read timed out"
           eq_refl eq_refl)).
Defined.
